(** * DocAgent: the codebase scanner, the document generator and the
      workflow driver, embedded from [agent_with_crew.py] and [main.py].

    - Python [str] values are [string]s; a character is one of the code
      points U+0000..U+00FF, and [lower] and [strip] follow Python on
      that range.
    - Code that can raise is a computation [Py St A] on a state; what was
      done to the state before a raise stays done.
    - The scanner reads a [Tree]: what [os.walk] yields and what opening
      each path gives.  The generator writes to a [Disk], a map from paths
      to files with the paths whose write raises and what a failed write
      leaves behind.  python-docx refuses text with a control character
      and stores a carriage return as a line break.
    - The driver of [main.py] runs on a machine whose state type and
      [tools] functions are parameters, next to a record of what the hosted
      agent service answers.
    - [print] calls are left out. *)

From Stdlib Require Import String Ascii List Bool Arith ZArith Lia Permutation DecimalString.
From stdpp Require Import gmap strings list.
Import ListNotations.

(** ** Python strings *)

Definition nl : ascii := ascii_of_nat 10.
Definition NL : string := String nl "".

(** [s.startswith(p)] *)
Definition startswith (s p : string) : bool := String.prefix p s.

(** [s.endswith(p)] *)
Fixpoint endswith (s p : string) : bool :=
  String.eqb s p ||
  match s with
  | EmptyString => false
  | String _ s' => endswith s' p
  end.

(** [needle in hay] *)
Fixpoint contains (needle hay : string) : bool :=
  String.prefix needle hay ||
  match hay with
  | EmptyString => false
  | String _ hay' => contains needle hay'
  end.

(** [s[n:]] *)
Fixpoint skip (n : nat) (s : string) : string :=
  match n, s with
  | O, _ => s
  | S _, EmptyString => EmptyString
  | S n', String _ s' => skip n' s'
  end.

(** [c.isspace()] on U+0000..U+00FF *)
Definition isspace (c : ascii) : bool :=
  let n := nat_of_ascii c in
  ((9 <=? n) && (n <=? 13)) || ((28 <=? n) && (n <=? 32))
  || (n =? 133) || (n =? 160).

Fixpoint lstrip (s : string) : string :=
  match s with
  | EmptyString => EmptyString
  | String c s' => if isspace c then lstrip s' else s
  end.

Fixpoint rstrip (s : string) : string :=
  match s with
  | EmptyString => EmptyString
  | String c s' =>
      match rstrip s' with
      | EmptyString => if isspace c then EmptyString else String c EmptyString
      | r => String c r
      end
  end.

(** [s.strip()] *)
Definition strip (s : string) : string := rstrip (lstrip s).

(** truth value of a string: non-empty *)
Definition truthy (s : string) : bool :=
  match s with EmptyString => false | _ => true end.

(** [c.lower()] on U+0000..U+00FF *)
Definition lower_char (c : ascii) : ascii :=
  let n := nat_of_ascii c in
  if ((65 <=? n) && (n <=? 90))
     || ((192 <=? n) && (n <=? 222) && negb (n =? 215))
  then ascii_of_nat (n + 32) else c.

(** [s.lower()] *)
Fixpoint lower (s : string) : string :=
  match s with
  | EmptyString => EmptyString
  | String c s' => String (lower_char c) (lower s')
  end.

(** [s.split('\n')] *)
Fixpoint split_lines (s : string) : list string :=
  match s with
  | EmptyString => [EmptyString]
  | String c s' =>
      if Ascii.eqb c nl then EmptyString :: split_lines s'
      else match split_lines s' with
           | [] => [String c EmptyString]
           | l :: ls => String c l :: ls
           end
  end.

(** iterating a text file: the lines, each with its terminator *)
Fixpoint file_lines (s : string) : list string :=
  match s with
  | EmptyString => []
  | String c s' =>
      if Ascii.eqb c nl then NL :: file_lines s'
      else match file_lines s' with
           | [] => [String c EmptyString]
           | l :: ls => String c l :: ls
           end
  end.

(** [c in s] for a character *)
Fixpoint mentions (c : ascii) (s : string) : bool :=
  match s with
  | EmptyString => false
  | String a s' => Ascii.eqb a c || mentions c s'
  end.

(** [str(n)] for a length *)
Definition str_of_nat (n : nat) : string :=
  NilZero.string_of_uint (Nat.to_uint n).

(** [sep.join(l)] *)
Fixpoint join (sep : string) (l : list string) : string :=
  match l with
  | [] => EmptyString
  | [x] => x
  | x :: rest => x +:+ sep +:+ join sep rest
  end.

(** ** Exceptions and effects

    A computation runs on a state and either returns or raises; what it did
    to the state before raising stays done. *)

Inductive exn : Type := Exception (msg : string).

(** [str(e)] *)
Definition str_of_exn (e : exn) : string := let 'Exception m := e in m.

Inductive outcome (A : Type) : Type :=
| Return (a : A)
| Raise (e : exn).
Arguments Return {A} a.
Arguments Raise {A} e.

Definition Py (St A : Type) : Type := St -> outcome A * St.

Definition ret {St A} (a : A) : Py St A := fun s => (Return a, s).

Definition bind {St A B} (c : Py St A) (k : A -> Py St B) : Py St B :=
  fun s => match c s with
           | (Return a, s') => k a s'
           | (Raise e, s') => (Raise e, s')
           end.

(** [try: c  except Exception as e: h e] *)
Definition try_except {St A} (c : Py St A) (h : exn -> Py St A) : Py St A :=
  fun s => match c s with
           | (Return a, s') => (Return a, s')
           | (Raise e, s') => h e s'
           end.

Notation "x <- c ;; k" := (bind c (fun x => k))
  (at level 100, c at next level, right associativity).
Notation "c ;;; k" := (bind c (fun _ => k))
  (at level 100, right associativity).

(** [for x in l: f x] *)
Fixpoint for_each {St A} (f : A -> Py St unit) (l : list A) : Py St unit :=
  match l with
  | [] => ret tt
  | x :: rest => f x ;;; for_each f rest
  end.

(** ** DocumentGeneratorTool *)

Module Generator.

(** A paragraph of the document, with its text as python-docx gives it
    back: [doc.add_heading] and [doc.add_paragraph] append one each. *)
Inductive Block : Type :=
| Heading (text : string) (level : nat)
| Paragraph (text : string).

Inductive Blob : Type :=
| Markdown (text : string)
| Docx (body : list Block).

(** A failed attempt to write a path: the error raised, and what the path
    holds afterwards when the attempt got as far as creating or truncating
    the file. *)
Record Fault : Type := mkFault {
  fault_error : exn;
  fault_residue : option Blob
}.

(** The files on disk, and the paths whose writing fails. *)
Record Disk : Type := mkDisk {
  store : gmap string Blob;
  fault : string -> option Fault
}.

Definition put_file (path : string) (b : Blob) (d : Disk) : Disk :=
  mkDisk (<[path := b]> (store d)) (fault d).

(** what a failed attempt leaves behind *)
Definition leave (path : string) (f : Fault) (d : Disk) : Disk :=
  match fault_residue f with
  | Some residue => put_file path residue d
  | None => d
  end.

(** [open(path, 'w')] and write, or [doc.save(path)] *)
Definition write (path : string) (b : Blob) : Py Disk unit :=
  fun d => match fault d path with
           | Some f => (Raise (fault_error f), leave path f d)
           | None => (Return tt, put_file path b d)
           end.

Definition cr : ascii := ascii_of_nat 13.

(** The characters python-docx can store: no control character other than
    tab, line feed and carriage return. *)
Definition xml_char (c : ascii) : bool :=
  let n := nat_of_ascii c in
  (32 <=? n) || (n =? 9) || (n =? 10) || (n =? 13).

Fixpoint xml_compatible (s : string) : bool :=
  match s with
  | EmptyString => true
  | String c s' => xml_char c && xml_compatible s'
  end.

(** the [ValueError] raised on any other text *)
Definition xml_error : exn :=
  Exception "All strings must be XML compatible: Unicode or ASCII, no NULL bytes or control characters".

(** The text of a paragraph as read back: a carriage return is stored as
    a line break, which reads as a line feed. *)
Fixpoint stored_text (s : string) : string :=
  match s with
  | EmptyString => EmptyString
  | String c s' => String (if Ascii.eqb c cr then nl else c) (stored_text s')
  end.

(** [doc.add_heading(text, level)]; the document is dropped when the call
    raises *)
Definition add_heading (text : string) (level : nat) : Py (list Block) unit :=
  fun doc => if xml_compatible text
             then (Return tt, doc ++ [Heading (stored_text text) level])
             else (Raise xml_error, doc).

(** [doc.add_paragraph(text)] *)
Definition add_paragraph (text : string) : Py (list Block) unit :=
  fun doc => if xml_compatible text
             then (Return tt, doc ++ [Paragraph (stored_text text)])
             else (Raise xml_error, doc).

Definition title : Block := Heading "Documentation Package" 0.

(** the loop body over [lines] *)
Definition add_line (line : string) : Py (list Block) unit :=
  if startswith line "# " then add_heading (skip 2 line) 1
  else if startswith line "## " then add_heading (skip 3 line) 2
  else if startswith line "### " then add_heading (skip 4 line) 3
  else if truthy (strip line) then add_paragraph line
  else ret tt.

(** [doc = Document()], the title and the loop: the document handed to
    [doc.save], or the error of the first call that raises *)
Definition build_document (content : string) : outcome (list Block) :=
  match (add_heading "Documentation Package" 0 ;;;
         for_each add_line (split_lines content)) [] with
  | (Return _, doc) => Return doc
  | (Raise e, _) => Raise e
  end.

Definition building {A} (o : outcome A) : Py Disk A := fun d => (o, d).

Definition md_path (project_name : string) : string := project_name +:+ ".md".
Definition docx_path (project_name : string) : string := project_name +:+ ".docx".

Definition success_message (project_name : string) : string :=
  "Files generated successfully:" +:+ NL +:+ "- " +:+ md_path project_name
    +:+ NL +:+ "- " +:+ docx_path project_name.

Definition error_message (e : exn) : string :=
  " Error generating files: " +:+ str_of_exn e.

(** the [try] block *)
Definition _run_body (content project_name : string) : Py Disk string :=
  write (md_path project_name) (Markdown content) ;;;
  doc <- building (build_document content) ;;
  write (docx_path project_name) (Docx doc) ;;;
  ret (success_message project_name).

Definition _run (content project_name : string) : Py Disk string :=
  try_except (_run_body content project_name)
             (fun e => ret (error_message e)).

(** The markers with their levels, in the order the source tests them. *)
Definition markers : list (string * nat) := [("# ", 1); ("## ", 2); ("### ", 3)].

(** The spec's order: longest marker first. *)
Definition longest_first : list (string * nat) := [("### ", 3); ("## ", 2); ("# ", 1)].

(** [bool(line.strip())] *)
Definition nonblank (line : string) : bool := truthy (strip line).

(** A line classified by testing the markers in a given order. *)
Definition blocks_in_order (order : list (string * nat)) (line : string) : list Block :=
  match find (fun m => startswith line (fst m)) order with
  | Some (p, lvl) => [Heading (stored_text (skip (String.length p) line)) lvl]
  | None => if nonblank line then [Paragraph (stored_text line)] else []
  end.

(** A line python-docx takes: a blank line, which is skipped, or a line of
    characters it can store. *)
Definition line_ok (line : string) : bool := negb (nonblank line) || xml_compatible line.

(** The spec's reading of the heading mapping: on every input a document
    is built, and it has a level-3 heading for each line that starts with
    [### ]. *)
Definition every_input_is_mapped : Prop :=
  forall content : string,
    exists doc : list Block,
      build_document content = Return doc
      /\ forall line, In line (split_lines content) -> startswith line "### " = true ->
                      In (Heading (stored_text (skip 4 line)) 3) doc.

(** a heading and a paragraph with a control character in it *)
Definition bell_content : string :=
  "### A" +:+ NL +:+ "ring " +:+ String (ascii_of_nat 7) "".

(** The spec's reading of the two writes: each output is written whenever
    its own path can be written, whatever happens to the other. *)
Definition each_write_independent : Prop :=
  forall (content project_name : string) (d : Disk),
    let d' := snd (_run content project_name d) in
    (fault d (md_path project_name) = None ->
     is_Some (store d' !! md_path project_name))
    /\ (fault d (docx_path project_name) = None ->
        is_Some (store d' !! docx_path project_name)).

(** a disk on which only [Doc.md] cannot be written *)
Definition md_refused : Disk :=
  mkDisk ∅ (fun p => if String.eqb p "Doc.md"
                     then Some (mkFault (Exception "disk full") None) else None).

(** a disk on which only [Doc.docx] cannot be written; the failed save
    leaves a file with nothing in it *)
Definition docx_refused : Disk :=
  mkDisk ∅ (fun p => if String.eqb p "Doc.docx"
                     then Some (mkFault (Exception "read-only") (Some (Docx []))) else None).

(** a disk with nothing on it, where every path can be written *)
Definition blank_disk : Disk := mkDisk ∅ (fun _ => None).

(** the marker of a heading level: [level] hashes and a space *)
Fixpoint hashes (level : nat) : string :=
  match level with
  | O => " "
  | S n => String "#" (hashes n)
  end.

(** a block written back as a line of markdown *)
Definition line_of_block (b : Block) : string :=
  match b with
  | Heading text level => hashes level +:+ text
  | Paragraph text => text
  end.

End Generator.

(** ** CodebaseAnalyzerTool *)

Module Scanner.

(** the [result] dict; its keys are fixed *)
Record Analysis : Type := mkAnalysis {
  language : string;
  files : list string;
  endpoints : list string;
  auth_methods : list string;
  databases : list string;
  security_issues : list string;
  architecture : string
}.

(** What the two ways of opening a source file give:
    [open(path, 'r', encoding='utf-8', errors='ignore').read()], and the
    lines of [open(path)], read with the default codec. *)
Record SourceFile : Type := mkSource {
  lenient : outcome string;
  strict : outcome string
}.

(** The tree as the scanner sees it: [os.walk(top)] as the list of
    [(root, files)] it yields, and the source files by path. *)
Record Tree : Type := mkTree {
  walk : string -> list (string * list string);
  source : string -> SourceFile
}.

Definition extensions : list string := [".py"; ".js"; ".ts"; ".java"; ".go"; ".cs"].

Definition eligible (file : string) : bool := existsb (endswith file) extensions.

(** [os.path.join(root, file)] *)
Definition path_join (root file : string) : string :=
  if startswith file "/" then file
  else if negb (truthy root) || endswith root "/" then root +:+ file
  else root +:+ "/" +:+ file.

Definition initial : Analysis :=
  mkAnalysis "unknown" [] [] [] [] [] "Not detected".

Definition set_language (l : string) : Py Analysis unit :=
  fun r => (Return tt, mkAnalysis l (files r) (endpoints r) (auth_methods r)
                                   (databases r) (security_issues r) (architecture r)).

Definition append_file (p : string) (r : Analysis) : Analysis :=
  mkAnalysis (language r) (files r ++ [p]) (endpoints r) (auth_methods r)
             (databases r) (security_issues r) (architecture r).

Definition extend_endpoints (l : list string) : Py Analysis unit :=
  fun r => (Return tt, mkAnalysis (language r) (files r) (endpoints r ++ l) (auth_methods r)
                                   (databases r) (security_issues r) (architecture r)).

Definition append_auth (a : string) : Py Analysis unit :=
  fun r => (Return tt, mkAnalysis (language r) (files r) (endpoints r) (auth_methods r ++ [a])
                                   (databases r) (security_issues r) (architecture r)).

Definition append_security (i : string) : Py Analysis unit :=
  fun r => (Return tt, mkAnalysis (language r) (files r) (endpoints r) (auth_methods r)
                                   (databases r) (security_issues r ++ [i]) (architecture r)).

Definition set_architecture (a : string) (r : Analysis) : Analysis :=
  mkAnalysis (language r) (files r) (endpoints r) (auth_methods r)
             (databases r) (security_issues r) a.

(** an outcome of the tree, used inside a computation on [result] *)
Definition reading {A} (o : outcome A) : Py Analysis A := fun r => (o, r).

Definition when (b : bool) (c : Py Analysis unit) : Py Analysis unit :=
  if b then c else ret tt.

Definition any_in (markers : list string) (content : string) : bool :=
  existsb (fun x => contains x content) markers.

Definition is_endpoint_line (l : string) : bool :=
  contains "get(" l || contains "post(" l.

(** the [try] block of one eligible file *)
Definition try_block (t : Tree) (path file : string) : Py Analysis unit :=
  text <- reading (lenient (source t path)) ;;
  let content := lower text in
  when (any_in ["fastapi"; "flask"; "@app.route"; "router."] content)
       (set_language "Python Web" ;;;
        raw <- reading (strict (source t path)) ;;
        extend_endpoints (map strip (List.filter is_endpoint_line (file_lines raw)))) ;;;
  when (contains "express" content) (set_language "Node.js Express") ;;;
  when (any_in ["jwt"; "oauth"; "passport"; "auth0"] content)
       (append_auth "OAuth/JWT detected") ;;;
  when (contains "password" content
        && (contains "=" content || contains "hardcoded" content))
       (append_security ("Possible secret in " +:+ file)).

(** the body of the inner loop: one [file] of one [root] *)
Definition scan_file (t : Tree) (root : string) (r : Analysis) (file : string) : Analysis :=
  if eligible file then
    let path := path_join root file in
    snd (try_except (try_block t path file) (fun _ => ret tt) (append_file path r))
  else r.

Definition scan_root (t : Tree) (r : Analysis) (entry : string * list string) : Analysis :=
  fold_left (scan_file t (fst entry)) (snd entry) r.

Definition summary (r : Analysis) : string :=
  str_of_nat (length (files r)) +:+ " files | " +:+ language r +:+ " | "
    +:+ str_of_nat (length (endpoints r)) +:+ " endpoints".

(** the walk over a directory, from a fresh [result] *)
Definition scan (t : Tree) (top : string) : Analysis :=
  let r := fold_left (scan_root t) (walk t top) initial in
  set_architecture (summary r) r.

Definition extract_dir : string := "temp_codebase".

Section Run.
(** [zipfile.ZipFile(archive).extractall(dir)] *)
Variable extractall : string -> string -> Py Tree unit.

Definition _run (codebase_path : string) : Py Tree Analysis :=
  top <- (if endswith codebase_path ".zip"
          then extractall codebase_path extract_dir ;;; ret extract_dir
          else ret codebase_path) ;;
  fun t => (Return (scan t top), t).
End Run.

(** A file met by the walk: an eligible name in one of the yielded
    lists. *)
Definition met (t : Tree) (top root file : string) : Prop :=
  exists fs, In (root, fs) (walk t top) /\ In file fs /\ eligible file = true.

(** A read error on a file: the first read raises, or the file is taken
    for a web framework and the second read raises. *)
Definition read_error (t : Tree) (path : string) : Prop :=
  (exists e, lenient (source t path) = Raise e)
  \/ (exists text e,
        lenient (source t path) = Return text
        /\ any_in ["fastapi"; "flask"; "@app.route"; "router."] (lower text) = true
        /\ strict (source t path) = Raise e).

(** The spec's reading of a read error: the file is left out of the
    file list. *)
Definition unreadable_files_are_excluded : Prop :=
  forall (t : Tree) (top root file : string),
    met t top root file -> read_error t (path_join root file) ->
    ~ In (path_join root file) (files (scan t top)).

(** The spec's reading of endpoint collection: the matching lines as
    they are in the file, with or without their terminators. *)
Definition endpoints_are_verbatim : Prop :=
  forall (t : Tree) (root file : string) (acc : Analysis) (text raw : string),
    eligible file = true ->
    lenient (source t (path_join root file)) = Return text ->
    any_in ["fastapi"; "flask"; "@app.route"; "router."] (lower text) = true ->
    strict (source t (path_join root file)) = Return raw ->
    endpoints (scan_file t root acc file)
      = endpoints acc ++ List.filter is_endpoint_line (split_lines raw)
    \/ endpoints (scan_file t root acc file)
         = endpoints acc ++ List.filter is_endpoint_line (file_lines raw).

(** The spec's scenario, for every content with the two substrings. *)
Definition login_jwt_scenario : Prop :=
  forall (t : Tree) (top root file text : string),
    walk t top = [(root, [file])] -> eligible file = true ->
    lenient (source t (path_join root file)) = Return text ->
    strict (source t (path_join root file)) = Return text ->
    contains "@app.route('/login')" text = true -> contains "jwt" text = true ->
    auth_methods (scan t top) <> []
    /\ language (scan t top) = "Python Web"
    /\ security_issues (scan t top) = [].

(** a tree of one directory [proj] holding one file [app.py] *)
Definition one_file (f : SourceFile) : Tree :=
  mkTree (fun top => if String.eqb top "proj" then [("proj", ["app.py"])] else [])
         (fun _ => f).

Definition readable (text : string) : SourceFile := mkSource (Return text) (Return text).

Definition unreadable : SourceFile :=
  mkSource (Raise (Exception "Permission denied")) (Raise (Exception "Permission denied")).

Definition flask_text : string :=
  "from flask import Flask" +:+ NL +:+ "    app.get('/x')" +:+ NL +:+ "x = 1" +:+ NL.

Definition login_text : string := "@app.route('/login')" +:+ NL +:+ "import jwt" +:+ NL.

Definition login_secret_text : string := login_text +:+ "password = 'x'" +:+ NL.

(** the same directory [proj] in a file system with other files around it *)
Definition one_file_amid (f : SourceFile) : Tree :=
  mkTree (fun top => if String.eqb top "proj" then [("proj", ["app.py"])]
                     else [("other", ["b.py"])])
         (fun p => if String.eqb p "proj/app.py" then f else unreadable).

(** a tree whose directory [empty] holds nothing *)
Definition empty_dir : Tree :=
  mkTree (fun top => if String.eqb top "empty" then [("empty", [])] else [])
         (fun _ => unreadable).

(** an extraction that always fails *)
Definition no_zip : string -> string -> Py Tree unit :=
  fun _ _ t => (Raise (Exception "not a zip file"), t).

(** A path of the walk: the join of a yielded root and one of its eligible
    file names. *)
Definition walked (t : Tree) (top path : string) : Prop :=
  exists root fs file,
    In (root, fs) (walk t top) /\ In file fs /\ eligible file = true
    /\ path = path_join root file.

Definition web_markers : list string := ["fastapi"; "flask"; "@app.route"; "router."].

(** a client script: it calls [requests.get(] and names no framework *)
Definition client_text : string :=
  "import requests" +:+ NL +:+ "r = requests.get('http://x')" +:+ NL.

(** a text whose last character is not white space *)
Fixpoint ends_solid (t : string) : bool :=
  match t with
  | EmptyString => false
  | String a EmptyString => negb (isspace a)
  | String _ t' => ends_solid t'
  end.

(** a text whose first character is not white space *)
Definition starts_solid (t : string) : bool :=
  match t with
  | EmptyString => false
  | String a _ => negb (isspace a)
  end.

End Scanner.

(** ** The workflow driver of [main.py] *)

Module Workflow.

(** What the driver reads of the value [analyze_codebase_advanced]
    returns; a key that is missing reads as the empty list. *)
Record Findings : Type := mkFindings {
  found_files : list string;
  api_endpoints : list string;
  security_findings : list string
}.

(** the returned value: a dict, or anything else *)
Inductive AnalysisValue : Type :=
| ADict (f : Findings)
| AOther.

(** [analysis if isinstance(analysis, dict) else {}] *)
Definition analysis_dict_of (a : AnalysisValue) : Findings :=
  match a with
  | ADict f => f
  | AOther => mkFindings [] [] []
  end.

(** the values held by a result dict *)
Inductive Value : Type :=
| VStr (s : string)
| VNone
| VPaths (l : list string)
| VAnalysis (a : AnalysisValue).

Record RunInfo : Type := mkRun {
  thread_id : string;
  run_id : string;
  run_status : string
}.

(** The hosted agent service as the driver meets it. *)
Record Hosted : Type := mkHosted {
  AGENT_SDK_AVAILABLE : bool;
  (** [agents['orchestrator']['id']] when [create_foundry_agents()]
      returns a dict with that key *)
  create_foundry_agents : option string;
  (** whether [get_agent_client()] returns a client *)
  get_agent_client : bool;
  (** by agent id and user message *)
  create_thread_and_process_run : string -> string -> outcome RunInfo;
  (** by thread id: the text of the last assistant message, if any *)
  get_last_message_text : string -> outcome (option string)
}.

(** the calls into the [tools] module, as they are made *)
Inductive Call : Type :=
| CallAnalyze (path : string)
| CallRender (markdown_content output_dir : string).

Definition take (n : nat) (s : string) : string := String.substring 0 n s.

(** the lines of a triple-quoted text, each closed by a newline *)
Fixpoint unlines (l : list string) : string :=
  match l with
  | [] => ""
  | x :: rest => x +:+ NL +:+ unlines rest
  end.

(** the template of the fallback documentation *)
Definition fallback_document (prompt : string) (analysis_dict : Findings) (date : string)
  : string :=
  unlines [
    "# Documentation Package";
    "";
    "## Project Overview";
    "Generated based on: " +:+ prompt;
    "";
    "## Business Requirements Document (BRD)";
    "";
    "### Executive Summary";
    "This document outlines the business requirements for the system.";
    "";
    "### Stakeholders";
    "- Development Team";
    "- Product Management";
    "- Quality Assurance";
    "- Security Team";
    "";
    "### Business Objectives";
    "1. Deliver high-quality documentation";
    "2. Ensure comprehensive coverage";
    "3. Maintain security standards";
    "4. Enable efficient onboarding";
    "";
    "## Functional Requirements Document (FRD)";
    "";
    "### System Architecture";
    match found_files analysis_dict with
    | _ :: _ => "Architecture based on analyzed codebase"
    | [] => "Template architecture - customize based on your system"
    end;
    "";
    "### Core Features";
    "1. **Feature 1**: Description";
    "2. **Feature 2**: Description";
    "3. **Feature 3**: Description";
    "";
    "### API Endpoints";
    match api_endpoints analysis_dict with
    | _ :: _ => "Detected " +:+ str_of_nat (length (api_endpoints analysis_dict))
                  +:+ " API endpoints"
    | [] => "Define your API endpoints here"
    end;
    "";
    "## Non-Functional Requirements Document (NFRD)";
    "";
    "### Performance Requirements";
    "- Response Time: < 200ms for API calls";
    "- Throughput: 1000 requests/second";
    "- Availability: 99.9% uptime";
    "";
    "### Security Requirements";
    "- Authentication: OAuth 2.0 / JWT";
    "- Authorization: Role-Based Access Control (RBAC)";
    "- Encryption: TLS 1.3 for data in transit";
    "- Data Protection: AES-256 for data at rest";
    "";
    match security_findings analysis_dict with
    | _ :: _ => "### Security Findings"
    | [] => ""
    end;
    join NL (map (fun finding => "- " +:+ finding)
                 (firstn 5 (security_findings analysis_dict)));
    "";
    "### Scalability";
    "- Horizontal scaling capability";
    "- Load balancing";
    "- Caching strategy";
    "";
    "## Compliance & Standards";
    "- GDPR compliance";
    "- SOC 2 Type II";
    "- ISO 27001";
    "";
    "## Architecture Overview";
    "";
    "### Technology Stack";
    match found_files analysis_dict with
    | _ :: _ => "Python: "
                  +:+ str_of_nat (length (List.filter (fun f => endswith f ".py")
                                                 (found_files analysis_dict)))
                  +:+ " files"
    | [] => "Define your tech stack"
    end;
    "";
    "### Deployment Architecture";
    "- Cloud Platform: Azure";
    "- Container Orchestration: Kubernetes";
    "- CI/CD: GitHub Actions";
    "";
    "---";
    "Generated by Azure AI Foundry Documentation Agent";
    "Date: " +:+ date
  ].

(** the message sent to the orchestrator agent *)
Definition user_message (prompt : string) (codebase_path : option string) : string :=
  prompt +:+ NL +:+ NL +:+ "Codebase: "
    +:+ match codebase_path with
        | Some p => if truthy p then p else "Template mode - no codebase provided"
        | None => "Template mode - no codebase provided"
        end
    +:+ NL +:+ NL
    +:+ "Generate comprehensive documentation with BRD, FRD, NFRD, Security docs, and Architecture overview.".

Definition output_dir : string := "./outputs".

Section Driver.
(** The local machine: its state, and what is not in [main.py]. *)
Context {W : Type}.
(** [os.path.exists] *)
Variable path_exists : string -> W -> bool.
(** [datetime.now().strftime('%Y-%m-%d %H:%M:%S')] *)
Variable now : W -> string.
(** the two functions of the [tools] module *)
Variable analyze_codebase_advanced : string -> Py W AnalysisValue.
Variable render_documents_advanced : string -> string -> Py W (list string).
Variable hosted : Hosted.

(** the machine, with the calls made into [tools] so far *)
Record Local : Type := mkLocal {
  world : W;
  calls : list Call
}.

Definition call_analyze (path : string) : Py Local AnalysisValue :=
  fun s => let (o, w) := analyze_codebase_advanced path (world s) in
           (o, mkLocal w (calls s ++ [CallAnalyze path])).

Definition call_render (doc dir : string) : Py Local (list string) :=
  fun s => let (o, w) := render_documents_advanced doc dir (world s) in
           (o, mkLocal w (calls s ++ [CallRender doc dir])).

Definition asking {A} (o : outcome A) : Py Local A := fun s => (o, s).

Definition results0 : gmap string Value :=
  {[ "status" := VStr "success_fallback";
     "documentation" := VStr "";
     "analysis" := VNone;
     "rendered_files" := VPaths [] ]}.

Definition error_result (e : exn) : gmap string Value :=
  {[ "status" := VStr "error"; "error" := VStr (str_of_exn e) ]}.

(** Step 1 of the fallback: [analysis_dict] and [results] after it *)
Definition fallback_analysis (codebase_path : option string)
  : Py Local (Findings * gmap string Value) :=
  fun s =>
    match codebase_path with
    | Some p =>
        if truthy p && path_exists p (world s) then
          (analysis <- call_analyze p ;;
           ret (analysis_dict_of analysis,
                <["analysis" := VAnalysis analysis]> results0)) s
        else (Return (mkFindings [] [] [], results0), s)
    | None => (Return (mkFindings [] [] [], results0), s)
    end.

(** the [try] block of the fallback *)
Definition fallback_body (prompt : string) (codebase_path : option string)
  : Py Local (gmap string Value) :=
  step1 <- fallback_analysis codebase_path ;;
  let analysis_dict := fst step1 in
  let results := snd step1 in
  fun s =>
    let documentation := fallback_document prompt analysis_dict (now (world s)) in
    let results := <["documentation" := VStr documentation]> results in
    (rendered_files <- call_render documentation output_dir ;;
     ret (<["rendered_files" := VPaths rendered_files]> results)) s.

Definition run_fallback_workflow (prompt : string) (codebase_path : option string)
  : Py Local (gmap string Value) :=
  try_except (fallback_body prompt codebase_path)
             (fun e => ret (error_result e)).

(** the [try] block of the hosted path *)
Definition hosted_body (prompt : string) (codebase_path : option string)
           (orchestrator_id : string) : Py Local (gmap string Value) :=
  run <- asking (create_thread_and_process_run hosted orchestrator_id
                   (user_message prompt codebase_path)) ;;
  if negb (String.eqb (run_status run) "completed") then
    ret {[ "status" := VStr "failed"; "error" := VStr (run_status run) ]}
  else
    last_message_obj <- asking (get_last_message_text hosted (thread_id run)) ;;
    match last_message_obj with
    | None => ret {[ "status" := VStr "no_output" ]}
    | Some doc =>
        rendered <- try_except (call_render doc output_dir) (fun _ => ret []) ;;
        ret {[ "status" := VStr "success";
               "thread_id" := VStr (thread_id run);
               "run_id" := VStr (run_id run);
               "documentation" := VStr doc;
               "rendered_files" := VPaths rendered;
               "preview" := VStr (take 500 doc) ]}
    end.

Definition run_docagent_workflow (prompt : string) (codebase_path : option string)
  : Py Local (gmap string Value) :=
  if negb (AGENT_SDK_AVAILABLE hosted) then run_fallback_workflow prompt codebase_path
  else
    match create_foundry_agents hosted with
    | None => run_fallback_workflow prompt codebase_path
    | Some orchestrator_id =>
        if negb (get_agent_client hosted) then run_fallback_workflow prompt codebase_path
        else try_except (hosted_body prompt codebase_path orchestrator_id)
                        (fun e => ret (error_result e))
    end.
End Driver.

(** The hosted service is unavailable: one of the three tests that send
    the driver to the fallback holds. *)
Definition unavailable (h : Hosted) : bool :=
  negb (AGENT_SDK_AVAILABLE h)
  || match create_foundry_agents h with None => true | Some _ => false end
  || negb (get_agent_client h).

(** the five section headers the spec names *)
Definition five_headers : list string :=
  ["BRD"; "FRD"; "NFRD"; "Security & Compliance"; "Architecture Overview"].

(** the section headers of the template *)
Definition template_headers : list string :=
  ["## Business Requirements Document (BRD)";
   "## Functional Requirements Document (FRD)";
   "## Non-Functional Requirements Document (NFRD)";
   "### Security Requirements";
   "## Compliance & Standards";
   "## Architecture Overview"].

(** The spec's reading of the fallback: it succeeds on every input and
    its documentation names the five sections. *)
Definition fallback_always_succeeds : Prop :=
  forall (W : Type) (path_exists : string -> W -> bool) (now : W -> string)
         (analyze : string -> Py W AnalysisValue)
         (render : string -> string -> Py W (list string))
         (hosted : Hosted) (prompt : string) (codebase_path : option string)
         (s : Local),
    unavailable hosted = true ->
    exists (res : gmap string Value) (s' : Local) (doc : string),
      run_docagent_workflow path_exists now analyze render hosted prompt codebase_path s
      = (Return res, s')
      /\ res !! "status" = Some (VStr "success_fallback")
      /\ res !! "documentation" = Some (VStr doc)
      /\ doc <> ""
      /\ Forall (fun h => contains h doc = true) five_headers.

(** a service whose SDK is not installed *)
Definition sdk_missing : Hosted :=
  mkHosted false None false (fun _ _ => Raise (Exception "no SDK"))
           (fun _ => Raise (Exception "no SDK")).

(** a service whose run raises *)
Definition run_fails : Hosted :=
  mkHosted true (Some "asst_1") true (fun _ _ => Raise (Exception "HTTP 503"))
           (fun _ => Return None).

(** a machine with no state on which both tools succeed *)
Definition analyze_ok : string -> Py unit AnalysisValue :=
  fun _ w => (Return (ADict (mkFindings ["a.py"] [] [])), w).

Definition render_ok : string -> string -> Py unit (list string) :=
  fun _ dir w => (Return [dir +:+ "/Documentation_Package.md";
                          dir +:+ "/Documentation_Package.docx"], w).

(** a render step that fails *)
Definition render_fails : string -> string -> Py unit (list string) :=
  fun _ _ w => (Raise (Exception "No space left on device"), w).

Definition no_path : string -> unit -> bool := fun _ _ => false.

Definition clock : unit -> string := fun _ => "2025-01-01 00:00:00".

Definition start : @Local unit := mkLocal tt [].

(** the values the [status] key takes *)
Definition statuses : list string :=
  ["success"; "success_fallback"; "failed"; "error"; "no_output"].

(** a service whose run completes with [doc] as the last message *)
Definition completes (doc : string) : Hosted :=
  mkHosted true (Some "asst_1") true
           (fun _ _ => Return (mkRun "thread_1" "run_1" "completed"))
           (fun _ => Return (Some doc)).

(** a service whose run ends in the status [expired] *)
Definition expires : Hosted :=
  mkHosted true (Some "asst_1") true
           (fun _ _ => Return (mkRun "thread_1" "run_1" "expired"))
           (fun _ => Return None).

(** a service whose run completes and leaves no assistant message *)
Definition silent : Hosted :=
  mkHosted true (Some "asst_1") true
           (fun _ _ => Return (mkRun "thread_1" "run_1" "completed"))
           (fun _ => Return None).

(** an analysis that fails *)
Definition analyze_fails : string -> Py unit AnalysisValue :=
  fun _ w => (Raise (Exception "cannot read"), w).

Definition any_path : string -> unit -> bool := fun _ _ => true.

End Workflow.

(** ** The crew of [agent_with_crew.py] *)

Module CrewSetup.

(** an [Agent], without its model handle and its [verbose] flag *)
Record Agent : Type := mkAgent {
  role : string;
  goal : string;
  backstory : string;
  tools : list string;
  allow_delegation : option bool
}.

Definition orchestrator : Agent :=
  mkAgent "Documentation Director"
          "Review and validate all documentation for completeness and quality"
          "15+ years leading enterprise architecture and documentation teams at Fortune 500s"
          [] (Some false).

Definition code_analyst : Agent :=
  mkAgent "Senior Code & System Intelligence Engineer"
          "Deeply understand any codebase and extract architecture, risks, flows"
          "Principal Engineer who reverse-engineers systems in minutes"
          ["analyze_codebase"] None.

Definition doc_specialist : Agent :=
  mkAgent "Enterprise Documentation Architect"
          "Write flawless BRD, FRD, NFRD, Security, Architecture docs"
          "Authored 1000+ audit-ready docs for banks, fintechs, governments"
          [] None.

Definition formatter : Agent :=
  mkAgent "Professional Document Publisher"
          "Convert content into beautiful DOCX and MD files with professional formatting"
          "Designs documents that impress CTOs and compliance teams"
          ["generate_documents"] None.

(** a [Task]; its context holds the tasks whose output it is given *)
Inductive Task : Type :=
| mkTask (description expected_output : string) (agent : Agent) (context : list Task).

Definition description (t : Task) : string := let 'mkTask d _ _ _ := t in d.
Definition expected_output (t : Task) : string := let 'mkTask _ e _ _ := t in e.
Definition agent (t : Task) : Agent := let 'mkTask _ _ a _ := t in a.
Definition context (t : Task) : list Task := let 'mkTask _ _ _ c := t in c.

Inductive Process : Type := sequential | hierarchical.

Record Crew : Type := mkCrew {
  agents : list Agent;
  tasks : list Task;
  process : Process;
  memory : bool;
  cache : bool
}.

(** the lines of a triple-quoted text inside the function: the first as
    it is, the others behind eight spaces *)
Definition indented (lines : list string) : string :=
  match lines with
  | [] => ""
  | first :: rest => join NL (first :: map (fun l => "        " +:+ l) rest)
  end.

(** [codebase_path or 'N/A'] *)
Definition path_or_na (codebase_path : option string) : string :=
  match codebase_path with
  | Some p => if truthy p then p else "N/A"
  | None => "N/A"
  end.

Definition create_docagent_crew (user_prompt : string) (codebase_path : option string)
  : Crew :=
  let task1 :=
    mkTask ("Analyze the codebase at " +:+ path_or_na codebase_path
              +:+ " and return full JSON summary")
           "Structured JSON with architecture, endpoints, risks, auth"
           code_analyst [] in
  let task2 :=
    mkTask (indented ["Using the code analysis + user prompt: '" +:+ user_prompt +:+ "'";
                      "Generate complete professional documentation including:";
                      "- Business Requirements Document (BRD)";
                      "- Functional Requirements Document (FRD)";
                      "- Non-Functional Requirements (NFRD)";
                      "- Security & Compliance Document";
                      "- Architecture Overview";
                      "Use enterprise standards."])
           "Full Markdown documentation with clear sections"
           doc_specialist [task1] in
  let task3 :=
    mkTask (indented ["Take the final Markdown documentation and use the generate_documents tool to create actual files.";
                      "Pass the complete markdown content to the tool to generate Documentation_Package.docx and Documentation_Package.md files.";
                      "Return the confirmation message from the tool."])
           "Confirmation message that DOCX and MD files have been generated successfully"
           formatter [task2] in
  let task4 :=
    mkTask (indented ["Review the generated documentation and file generation results. ";
                      "Provide a brief quality assessment covering:";
                      "1. Completeness of all required sections";
                      "2. Professional quality and clarity";
                      "3. File generation success";
                      "Keep the review concise and action-oriented."])
           "Brief quality assessment and confirmation that all deliverables are complete"
           orchestrator [task1; task2; task3] in
  mkCrew [orchestrator; code_analyst; doc_specialist; formatter]
         [task1; task2; task3; task4]
         sequential false false.

End CrewSetup.

(** ** The agent setup of [agents.py] *)

Module Agents.

(** an agent of the project, as the service reports it *)
Record AgentRec : Type := mkAgentRec {
  agent_id : string;
  agent_name : string
}.

(** the calls made on the client *)
Inductive ServiceCall : Type :=
| ListAgents
| CreateAgent (model name : string)
| DeleteAgent (id : string).

(** what [list_agents] hands back: a list, or the pager of the service with
    the agents it has still to yield *)
Inductive Listing : Type :=
| Listed (l : list AgentRec)
| Pager (left : list AgentRec).

Definition agent_names : list string :=
  ["DocOrchestrator"; "CodeAnalyzerAgent"; "DocGeneratorAgent"; "FormatterAgent"].

(** one turn of the loop over the listed agents *)
Definition note_agent (existing_agents : gmap string AgentRec) (a : AgentRec)
  : gmap string AgentRec :=
  if existsb (String.eqb (agent_name a)) agent_names
  then <[agent_name a := a]> existing_agents
  else existing_agents.

(** [existing_agents] after the loop over what the listing yields *)
Definition existing_of (listed : list AgentRec) : gmap string AgentRec :=
  fold_left note_agent listed ∅.

(** the dict returned on success *)
Definition agents_dict (orchestrator code_analyzer doc_generator formatter : AgentRec)
  : gmap string AgentRec :=
  {[ "orchestrator" := orchestrator;
     "code_analyzer" := code_analyzer;
     "doc_generator" := doc_generator;
     "formatter" := formatter ]}.

(** the names the creation step asks the service for *)
Definition missing (existing_agents : gmap string AgentRec) : list string :=
  List.filter (fun n => match existing_agents !! n with Some _ => false | None => true end)
              agent_names.

Section Service.
(** The process and the service: the state, and what is outside
    [agents.py]. *)
Context {S : Type}.
Variable AGENT_SDK_AVAILABLE : bool.
(** [os.getenv] *)
Variable getenv : string -> S -> option string.
(** [DefaultAzureCredential()] and then [AgentsClient(endpoint, credential)] *)
Variable new_client : string -> Py S unit.
(** [from tools import ...] *)
Variable import_tools : Py S unit.
(** [agent_client.list_agents()] iterated: the agents it yields and the
    error that ends the iteration, if any *)
Variable service_list_agents : S -> (list AgentRec * option exn) * S.
(** [agent_client.create_agent], by model and name; the instructions are
    fixed texts chosen by the name *)
Variable service_create_agent : string -> string -> Py S AgentRec.
(** [agent_client.delete_agent] *)
Variable service_delete_agent : string -> Py S unit.

(** the state, with the calls made on the client so far *)
Record Cloud : Type := mkCloud {
  service : S;
  service_calls : list ServiceCall
}.

Definition quietly {A} (c : Py S A) : Py Cloud A :=
  fun s => let (o, w) := c (service s) in (o, mkCloud w (service_calls s)).

Definition calling {A} (call : ServiceCall) (c : Py S A) : Py Cloud A :=
  fun s => let (o, w) := c (service s) in (o, mkCloud w (service_calls s ++ [call])).

(** the client, known by its endpoint *)
Definition get_agent_client : Py Cloud (option string) :=
  if negb AGENT_SDK_AVAILABLE then ret None
  else fun s =>
         match getenv "AZURE_AI_PROJECT_ENDPOINT" (service s) with
         | Some connection_string =>
             if truthy connection_string then
               try_except (quietly (new_client connection_string) ;;;
                           ret (Some connection_string))
                          (fun _ => ret None) s
             else (Return None, s)
         | None => (Return None, s)
         end.

(** one of the four agents: the existing one, or a new one *)
Definition create_or_reuse (existing_agents : gmap string AgentRec)
           (model_deployment name : string) : Py Cloud AgentRec :=
  match existing_agents !! name with
  | Some a => ret a
  | None => calling (CreateAgent model_deployment name)
                    (service_create_agent model_deployment name)
  end.

(** the creation step, after the check for existing agents *)
Definition create_missing (existing_agents : gmap string AgentRec)
           (model_deployment : string) : Py Cloud (gmap string AgentRec) :=
  orchestrator <- create_or_reuse existing_agents model_deployment "DocOrchestrator" ;;
  code_analyzer <- create_or_reuse existing_agents model_deployment "CodeAnalyzerAgent" ;;
  doc_generator <- create_or_reuse existing_agents model_deployment "DocGeneratorAgent" ;;
  formatter <- create_or_reuse existing_agents model_deployment "FormatterAgent" ;;
  ret (agents_dict orchestrator code_analyzer doc_generator formatter).

(** the outer [try] block, with the check for existing agents inside *)
Definition create_body (model_deployment : string) : Py Cloud (gmap string AgentRec) :=
  quietly import_tools ;;;
  fun s =>
    let '((listed, failure), w) := service_list_agents (service s) in
    let s' := mkCloud w (service_calls s ++ [ListAgents]) in
    let existing_agents := existing_of listed in
    match failure with
    | None =>
        if size existing_agents =? 4 then
          match existing_agents !! "DocOrchestrator",
                existing_agents !! "CodeAnalyzerAgent",
                existing_agents !! "DocGeneratorAgent",
                existing_agents !! "FormatterAgent" with
          | Some o, Some c, Some d, Some f => (Return (agents_dict o c d f), s')
          | _, _, _, _ => create_missing existing_agents model_deployment s'
          end
        else create_missing existing_agents model_deployment s'
    | Some _ => create_missing existing_agents model_deployment s'
    end.

Definition create_foundry_agents : Py Cloud (gmap string AgentRec) :=
  if negb AGENT_SDK_AVAILABLE then ret ∅
  else
    agent_client <- get_agent_client ;;
    match agent_client with
    | None => ret ∅
    | Some _ =>
        fun s =>
          let model_deployment :=
            match getenv "DEPLOYMENT_NAME" (service s) with
            | Some m => m
            | None => "gpt-4o-mini"
            end in
          try_except (create_body model_deployment) (fun _ => ret ∅) s
    end.

Definition deploy_model_if_needed (model_name deployment_name : string) : Py Cloud bool :=
  if negb AGENT_SDK_AVAILABLE then ret false
  else
    agent_client <- get_agent_client ;;
    match agent_client with
    | None => ret false
    | Some _ => try_except (ret true) (fun _ => ret false)
    end.

(** The pager that the success path returns has been run through by the
    print loop, so nothing is left in it to iterate. *)
Definition list_agents : Py Cloud Listing :=
  if negb AGENT_SDK_AVAILABLE then ret (Listed [])
  else
    agent_client <- get_agent_client ;;
    match agent_client with
    | None => ret (Listed [])
    | Some _ =>
        try_except
          (fun s =>
             let '((listed, failure), w) := service_list_agents (service s) in
             let s' := mkCloud w (service_calls s ++ [ListAgents]) in
             match failure with
             | None => (Return (Pager []), s')
             | Some e => (Raise e, s')
             end)
          (fun _ => ret (Listed []))
    end.

Definition delete_agent (id : string) : Py Cloud bool :=
  if negb AGENT_SDK_AVAILABLE then ret false
  else
    agent_client <- get_agent_client ;;
    match agent_client with
    | None => ret false
    | Some _ =>
        try_except (calling (DeleteAgent id) (service_delete_agent id) ;;; ret true)
                   (fun _ => ret false)
    end.
End Service.

(** a service with no state that lists the given agents, creates agents
    with the id [new], and is reached through the endpoint [https://p] *)
Definition env_set : string -> unit -> option string :=
  fun k _ => if String.eqb k "AZURE_AI_PROJECT_ENDPOINT" then Some "https://p" else None.

Definition client_ok : string -> Py unit unit := fun _ w => (Return tt, w).

Definition tools_ok : Py unit unit := fun w => (Return tt, w).

Definition lists (l : list AgentRec) : unit -> (list AgentRec * option exn) * unit :=
  fun w => ((l, None), w).

Definition listing_fails : unit -> (list AgentRec * option exn) * unit :=
  fun w => (([], Some (Exception "HTTP 500")), w).

Definition creates : string -> string -> Py unit AgentRec :=
  fun _ name w => (Return (mkAgentRec "new" name), w).

(** a service that creates the orchestrator and nothing else *)
Definition creates_one : string -> string -> Py unit AgentRec :=
  fun _ name w => if String.eqb name "DocOrchestrator"
                  then (Return (mkAgentRec "new" name), w)
                  else (Raise (Exception "quota exceeded"), w).

Definition deletes : string -> Py unit unit := fun _ w => (Return tt, w).

Definition fresh : @Cloud unit := mkCloud tt [].

Definition two_listed : list AgentRec :=
  [mkAgentRec "a1" "DocOrchestrator"; mkAgentRec "a2" "Other";
   mkAgentRec "a3" "FormatterAgent"].

End Agents.

(** ** [utils.py] *)

Module Utils.

(** The cache of [lru_cache]: the arguments seen with their results, the
    most recently used first, and the counters of [cache_info()]. *)
Record Cache : Type := mkCache {
  entries : list (Z * Z);
  hits : nat;
  misses : nat
}.

Definition maxsize : nat := 128.

Definition empty : Cache := mkCache [] 0 0.

Fixpoint cached (x : Z) (l : list (Z * Z)) : option Z :=
  match l with
  | [] => None
  | (k, v) :: rest => if Z.eqb k x then Some v else cached x rest
  end.

Fixpoint forget (x : Z) (l : list (Z * Z)) : list (Z * Z) :=
  match l with
  | [] => []
  | (k, v) :: rest => if Z.eqb k x then forget x rest else (k, v) :: forget x rest
  end.

(** [expensive_operation(x)] on an integer, behind the cache: a hit moves
    the entry to the front; a miss computes [x ** 2], drops the least
    recently used entry when the cache is full, and puts the new entry in
    front. *)
Definition expensive_operation (x : Z) (c : Cache) : Z * Cache :=
  match cached x (entries c) with
  | Some v => (v, mkCache ((x, v) :: forget x (entries c)) (S (hits c)) (misses c))
  | None =>
      let v := (x ^ 2)%Z in
      let kept := if length (entries c) <? maxsize then entries c
                  else removelast (entries c) in
      (v, mkCache ((x, v) :: kept) (hits c) (S (misses c)))
  end.

(** a sequence of calls, with the results in order *)
Fixpoint calls (xs : list Z) (c : Cache) : list Z * Cache :=
  match xs with
  | [] => ([], c)
  | x :: rest =>
      let (v, c1) := expensive_operation x c in
      let (vs, c2) := calls rest c1 in
      (v :: vs, c2)
  end.

(** a cache whose entries are right and not more than [maxsize] *)
Definition sound (c : Cache) : Prop :=
  (forall k v, cached k (entries c) = Some v -> v = (k ^ 2)%Z)
  /\ length (entries c) <= maxsize.

End Utils.

(** * Properties *)

(** ** Strings *)

Lemma append_nil (b : string) : "" +:+ b = b.
Proof. reflexivity. Qed.

Lemma append_cons (c : ascii) (a b : string) : String c a +:+ b = String c (a +:+ b).
Proof. reflexivity. Qed.

Lemma startswith_nil (s : string) : startswith s "" = true.
Proof. destruct s; reflexivity. Qed.

Lemma startswith_cons (a c : ascii) (s p : string) :
  startswith (String a s) (String c p) = true <-> a = c /\ startswith s p = true.
Proof.
  unfold startswith; simpl.
  destruct (ascii_dec c a) as [->|Hne]; split; try tauto; try discriminate.
  intros [-> _]; congruence.
Qed.

(** A string that starts with [p] is [p] followed by the rest. *)
Lemma startswith_inv (p s : string) :
  startswith s p = true -> s = p +:+ skip (String.length p) s.
Proof.
  revert s; induction p as [|c p IH]; intros s H.
  - reflexivity.
  - destruct s as [|a s]; [discriminate H|].
    apply startswith_cons in H as [-> H].
    rewrite append_cons. simpl. f_equal. apply IH, H.
Qed.

Lemma startswith_app (p s : string) : startswith (p +:+ s) p = true.
Proof.
  induction p as [|c p IH].
  - apply startswith_nil.
  - rewrite append_cons. apply startswith_cons; auto.
Qed.

Lemma startswith_app_l (p a b : string) :
  startswith a p = true -> startswith (a +:+ b) p = true.
Proof.
  revert a; induction p as [|c p IH]; intros a H.
  - apply startswith_nil.
  - destruct a as [|x a]; [discriminate H|].
    apply startswith_cons in H as [-> H]. rewrite append_cons.
    apply startswith_cons; auto.
Qed.

Lemma contains_startswith (t s : string) : startswith s t = true -> contains t s = true.
Proof.
  unfold startswith; intros H.
  destruct s; unfold contains; fold contains; rewrite H; reflexivity.
Qed.

Lemma contains_tail (t : string) (c : ascii) (s : string) :
  contains t s = true -> contains t (String c s) = true.
Proof. intros H; simpl; rewrite H; apply orb_true_r. Qed.

Lemma contains_app_r (t a b : string) : contains t b = true -> contains t (a +:+ b) = true.
Proof.
  intros H; induction a as [|c a IH]; [exact H|].
  rewrite append_cons. apply contains_tail, IH.
Qed.

Lemma contains_app_l (t a b : string) : contains t a = true -> contains t (a +:+ b) = true.
Proof.
  induction a as [|c a IH]; intros H.
  - destruct t; [apply contains_startswith, startswith_nil | discriminate H].
  - simpl in H. apply orb_true_iff in H as [H|H].
    + apply contains_startswith. apply (startswith_app_l t (String c a) b), H.
    + rewrite append_cons. apply contains_tail, IH, H.
Qed.

Lemma contains_self (t : string) : contains t t = true.
Proof.
  apply contains_startswith. unfold startswith.
  induction t as [|c t IH]; simpl; [reflexivity|].
  destruct (ascii_dec c c); congruence.
Qed.

(** [needle in hay] holds exactly of the strings that have [needle] inside. *)
Lemma contains_spec (t s : string) :
  contains t s = true <-> exists a b, s = a +:+ t +:+ b.
Proof.
  split.
  - induction s as [|c s IH]; simpl; intros H.
    + rewrite orb_false_r in H. destruct t; [|discriminate H].
      exists "", ""; reflexivity.
    + apply orb_true_iff in H as [H|H].
      * exists "", (skip (String.length t) (String c s)).
        apply (startswith_inv t (String c s)), H.
      * destruct (IH H) as (a & b & ->). exists (String c a), b; reflexivity.
  - intros (a & b & ->). apply contains_app_r, contains_app_l, contains_self.
Qed.

Lemma lower_app (a b : string) : lower (a +:+ b) = lower a +:+ lower b.
Proof.
  induction a as [|c a IH]; [reflexivity|].
  rewrite !append_cons. simpl. now rewrite IH, append_cons.
Qed.

(** Lowering keeps what the content has inside, lowered. *)
Lemma contains_lower (t s : string) :
  contains t s = true -> contains (lower t) (lower s) = true.
Proof.
  intros H. apply contains_spec in H as (a & b & ->).
  rewrite !lower_app. apply contains_spec; eauto.
Qed.

Lemma contains_trans (t u s : string) :
  contains t u = true -> contains u s = true -> contains t s = true.
Proof.
  intros H1 H2.
  apply contains_spec in H1 as (a & b & ->).
  apply contains_spec in H2 as (c & d & ->).
  apply contains_app_r, contains_app_l, contains_app_r, contains_app_l, contains_self.
Qed.

Lemma string_app_assoc (a b c : string) : (a +:+ b) +:+ c = a +:+ b +:+ c.
Proof. induction a as [|x a IH]; [reflexivity | now rewrite !append_cons, IH]. Qed.

Example split_lines_example :
  split_lines ("# A" +:+ NL +:+ NL +:+ "b") = ["# A"; ""; "b"].
Proof. reflexivity. Qed.

Example file_lines_example :
  file_lines ("a" +:+ NL +:+ NL +:+ "b") = ["a" +:+ NL; NL; "b"].
Proof. reflexivity. Qed.

Example strip_example : strip ("  x y " +:+ NL) = "x y".
Proof. reflexivity. Qed.

Example lower_example : lower "Flask@App.Route" = "flask@app.route".
Proof. reflexivity. Qed.

Example endswith_example : endswith "a.py" ".py" = true /\ endswith "a.pyc" ".py" = false.
Proof. split; reflexivity. Qed.

(** ** Effects *)


(** ** The document generator *)

Section GeneratorProperties.
Import Generator.

(** When at most one element of a list passes a test, [find] gives the
    same answer on every reordering of the list. *)
Lemma find_unique_Permutation {A} (p : A -> bool) (l l' : list A) :
  Permutation l l' ->
  (forall x y, In x l -> In y l -> p x = true -> p y = true -> x = y) ->
  find p l = find p l'.
Proof.
  induction 1 as [|a l l' HP IH|a b l|l l' l'' HP1 IH1 HP2 IH2]; intros Hu.
  - reflexivity.
  - simpl. destruct (p a); [reflexivity|].
    apply IH. intros x y Hx Hy. apply Hu; right; assumption.
  - simpl. destruct (p b) eqn:Hb, (p a) eqn:Ha; try reflexivity.
    f_equal. apply Hu; simpl; auto.
  - rewrite IH1 by exact Hu. apply IH2.
    intros x y Hx Hy. apply Hu.
    + apply (Permutation_in x (Permutation_sym HP1) Hx).
    + apply (Permutation_in y (Permutation_sym HP1) Hy).
Qed.

(** No line starts with two of the markers. *)
Lemma markers_exclusive (line : string) (m1 m2 : string * nat) :
  In m1 markers -> In m2 markers ->
  startswith line (fst m1) = true -> startswith line (fst m2) = true -> m1 = m2.
Proof.
  intros H1 H2 S1 S2.
  apply startswith_inv in S1. apply startswith_inv in S2.
  simpl in H1, H2.
  destruct H1 as [<-|[<-|[<-|[]]]], H2 as [<-|[<-|[<-|[]]]];
    try reflexivity; simpl in S1, S2; rewrite S1 in S2; discriminate S2.
Qed.

Lemma blocks_in_order_Permutation (order : list (string * nat)) (line : string) :
  Permutation order markers ->
  blocks_in_order order line = blocks_in_order markers line.
Proof.
  intros HP. unfold blocks_in_order.
  rewrite (find_unique_Permutation _ markers order); [reflexivity| now symmetry |].
  intros x y Hx Hy. apply markers_exclusive; assumption.
Qed.

Lemma blocks_at_marker (order : list (string * nat)) (line p : string) (lvl : nat) :
  Permutation order markers -> In (p, lvl) markers ->
  startswith line p = true ->
  blocks_in_order order line = [Heading (stored_text (skip (String.length p) line)) lvl].
Proof.
  intros HP Hin Hs. rewrite blocks_in_order_Permutation by exact HP.
  unfold blocks_in_order.
  destruct (find _ markers) as [[q k]|] eqn:Hf.
  - apply find_some in Hf as [Hq Hsq].
    assert (E : (q, k) = (p, lvl)) by (apply (markers_exclusive line); assumption).
    now inversion E.
  - apply (find_none _ _ Hf) in Hin. simpl in Hin. congruence.
Qed.

Lemma truthy_strip_cons (c : ascii) (s : string) :
  isspace c = false -> truthy (strip (String c s)) = true.
Proof.
  intros H. unfold strip. simpl. rewrite H. simpl.
  destruct (rstrip s); [rewrite H|]; reflexivity.
Qed.

(** A line that starts with a marker is not blank. *)
Lemma marker_line_nonblank (line p : string) (lvl : nat) :
  In (p, lvl) markers -> startswith line p = true -> nonblank line = true.
Proof.
  intros Hin Hs. apply startswith_inv in Hs. rewrite Hs. unfold nonblank.
  simpl in Hin. destruct Hin as [E|[E|[E|[]]]]; inversion E; subst p;
    rewrite append_cons; apply truthy_strip_cons; reflexivity.
Qed.

Lemma xml_compatible_app (a b : string) :
  xml_compatible (a +:+ b) = xml_compatible a && xml_compatible b.
Proof.
  induction a as [|c a IH]; [reflexivity|].
  rewrite append_cons. simpl. now rewrite IH, andb_assoc.
Qed.

(** python-docx takes a line that starts with a marker exactly when it
    takes the text behind the marker. *)
Lemma marker_line_ok (line p : string) (lvl : nat) :
  In (p, lvl) markers -> startswith line p = true ->
  line_ok line = xml_compatible (skip (String.length p) line).
Proof.
  intros Hin Hs. unfold line_ok.
  rewrite (marker_line_nonblank line p lvl Hin Hs). simpl.
  rewrite (startswith_inv p line Hs) at 1. rewrite xml_compatible_app.
  simpl in Hin. destruct Hin as [E|[E|[E|[]]]]; inversion E; reflexivity.
Qed.

(** One turn of the loop appends what the line is classified as, or
    raises when python-docx does not take the line. *)
Lemma add_line_spec (line : string) (doc : list Block) :
  add_line line doc
  = if line_ok line then (Return tt, doc ++ blocks_in_order markers line)
    else (Raise xml_error, doc).
Proof.
  unfold add_line, blocks_in_order, markers, add_heading, add_paragraph, ret.
  cbn [find fst].
  destruct (startswith line "# ") eqn:H1.
  { rewrite (marker_line_ok line "# " 1) by (simpl; auto). reflexivity. }
  destruct (startswith line "## ") eqn:H2.
  { rewrite (marker_line_ok line "## " 2) by (simpl; auto). reflexivity. }
  destruct (startswith line "### ") eqn:H3.
  { rewrite (marker_line_ok line "### " 3) by (simpl; auto). reflexivity. }
  unfold line_ok, nonblank. destruct (truthy (strip line)); simpl.
  - reflexivity.
  - now rewrite app_nil_r.
Qed.

Lemma for_each_add_line (lines : list string) (doc : list Block) :
  (forallb line_ok lines = true ->
   for_each add_line lines doc
   = (Return tt, doc ++ flat_map (blocks_in_order markers) lines))
  /\ (forallb line_ok lines = false ->
      fst (for_each add_line lines doc) = Raise xml_error).
Proof.
  revert doc; induction lines as [|l lines IH]; intros doc; simpl.
  - split; [intros _; unfold ret; now rewrite app_nil_r | discriminate].
  - unfold bind. rewrite add_line_spec. destruct (line_ok l); simpl.
    + destruct (IH (doc ++ blocks_in_order markers l)) as [IH1 IH2]. split.
      * intros H. rewrite (IH1 H), <- app_assoc. reflexivity.
      * exact IH2.
    + split; [discriminate | reflexivity].
Qed.

(** The document built from a content: the title and the blocks of its
    lines when python-docx takes every line, its error otherwise. *)
Lemma build_document_spec (content : string) :
  build_document content
  = if forallb line_ok (split_lines content)
    then Return (title :: flat_map (blocks_in_order markers) (split_lines content))
    else Raise xml_error.
Proof.
  unfold build_document, bind, add_heading. simpl xml_compatible. cbv iota.
  destruct (for_each_add_line (split_lines content)
              ([] ++ [Heading (stored_text "Documentation Package") 0])) as [H1 H2].
  destruct (forallb line_ok (split_lines content)).
  - rewrite (H1 eq_refl). reflexivity.
  - specialize (H2 eq_refl).
    destruct (for_each add_line (split_lines content) _) as [[u|e] doc'];
      simpl in H2; [discriminate H2 | now inversion H2].
Qed.

Lemma split_lines_cons (s : string) : exists l ls, split_lines s = l :: ls.
Proof.
  induction s as [|c s (l & ls & IH)]; cbn [split_lines]; [eauto|].
  destruct (Ascii.eqb c nl); [eauto|]. rewrite IH. eauto.
Qed.

(** The lines of a content, joined by newlines, are the content. *)
Lemma join_split_lines (s : string) : join NL (split_lines s) = s.
Proof.
  induction s as [|c s IH]; [reflexivity|].
  cbn [split_lines]. destruct (split_lines_cons s) as (l & ls & E).
  rewrite E in *. destruct (Ascii.eqb c nl) eqn:Hc.
  - apply Ascii.eqb_eq in Hc. subst c.
    change (join NL ("" :: l :: ls)) with ("" +:+ NL +:+ join NL (l :: ls)).
    rewrite IH. reflexivity.
  - destruct ls as [|y r].
    + simpl in *. now subst l.
    + change (join NL (String c l :: y :: r))
        with (String c l +:+ NL +:+ join NL (y :: r)).
      rewrite append_cons. f_equal. exact IH.
Qed.

(** No line holds a newline. *)
Lemma split_lines_no_newline (s : string) :
  Forall (fun line => mentions nl line = false) (split_lines s).
Proof.
  induction s as [|c s IH]; cbn [split_lines]; [repeat constructor|].
  destruct (Ascii.eqb c nl) eqn:Hc; [constructor; auto|].
  destruct (split_lines s) as [|l ls]; [repeat constructor; simpl; now rewrite Hc|].
  inversion IH; subst. constructor; [|assumption].
  simpl. rewrite Hc. assumption.
Qed.

Example build_document_example :
  build_document ("# A" +:+ NL +:+ "### B" +:+ NL +:+ " " +:+ NL +:+ "#c" +:+ NL +:+ "## D")
  = Return [title; Heading "A" 1; Heading "B" 3; Paragraph "#c"; Heading "D" 2].
Proof. reflexivity. Qed.

Example build_document_bell : build_document bell_content = Raise xml_error.
Proof. reflexivity. Qed.

Example build_document_crlf :
  build_document ("# A" +:+ String cr "" +:+ NL +:+ "b" +:+ String cr "")
  = Return [title; Heading ("A" +:+ NL) 1; Paragraph ("b" +:+ NL)].
Proof. reflexivity. Qed.

(** C1, as stated, fails: python-docx refuses a line with a control
    character in it, the build of the document raises, and the lines
    before and after it give no heading. *)
Lemma control_character_stops_mapping : ~ every_input_is_mapped.
Proof.
  intros H. destruct (H bell_content) as (doc & E & _).
  rewrite build_document_bell in E. discriminate E.
Qed.

(** C1, amended: whatever the order in which the three markers are
    tested, when python-docx takes every non-blank line of a markdown
    string (no control character other than tab and carriage return), the
    document built is the title followed, line by line of the string, by a
    level-3 heading for a line starting with [### ], a level-2 heading for
    [## ], a level-1 heading for [# ], a paragraph for any other non-blank
    line and nothing for a blank one, each block holding its text with a
    carriage return stored as a line break; otherwise the build raises and
    there is no document. *)
Theorem heading_levels_in_any_order (content : string) (order : list (string * nat)) :
  Permutation order markers ->
  build_document content
  = (if forallb line_ok (split_lines content)
     then Return (title :: flat_map (blocks_in_order order) (split_lines content))
     else Raise xml_error)
  /\ join NL (split_lines content) = content
  /\ Forall (fun line => mentions nl line = false) (split_lines content)
  /\ forall line,
       (startswith line "### " = true ->
        blocks_in_order order line = [Heading (stored_text (skip 4 line)) 3])
       /\ (startswith line "## " = true ->
           blocks_in_order order line = [Heading (stored_text (skip 3 line)) 2])
       /\ (startswith line "# " = true ->
           blocks_in_order order line = [Heading (stored_text (skip 2 line)) 1])
       /\ (startswith line "### " = false -> startswith line "## " = false ->
           startswith line "# " = false ->
           blocks_in_order order line
           = if truthy (strip line) then [Paragraph (stored_text line)] else []).
Proof.
  intros HP. split; [|split; [apply join_split_lines|split; [apply split_lines_no_newline|]]].
  - rewrite build_document_spec.
    destruct (forallb line_ok (split_lines content)); [|reflexivity].
    f_equal. f_equal. apply flat_map_ext. intros line. symmetry.
    now apply blocks_in_order_Permutation.
  - intros line. repeat split.
    + intros H. apply (blocks_at_marker order line "### " 3 HP); simpl; auto.
    + intros H. apply (blocks_at_marker order line "## " 2 HP); simpl; auto.
    + intros H. apply (blocks_at_marker order line "# " 1 HP); simpl; auto.
    + intros H3 H2 H1. rewrite blocks_in_order_Permutation by exact HP.
      unfold blocks_in_order, markers; simpl. now rewrite H1, H2, H3.
Qed.

Lemma heading_levels_in_any_order_witness :
  Permutation longest_first markers
  /\ build_document ("### B" +:+ NL +:+ "x")
     = Return (title :: flat_map (blocks_in_order longest_first)
                                 (split_lines ("### B" +:+ NL +:+ "x"))).
Proof.
  assert (HP : Permutation longest_first markers).
  { unfold longest_first, markers.
    apply Permutation_sym, (Permutation_rev [("# ", 1); ("## ", 2); ("### ", 3)]). }
  split; [exact HP|].
  exact (proj1 (heading_levels_in_any_order ("### B" +:+ NL +:+ "x") longest_first HP)).
Defined.

End GeneratorProperties.

Section GeneratorEffects.
Import Generator.

Example run_on_md_refused :
  _run "# T" "Doc" md_refused = (Return " Error generating files: disk full", md_refused).
Proof. reflexivity. Qed.

Example run_on_docx_refused :
  _run "# T" "Doc" docx_refused
  = (Return " Error generating files: read-only",
     put_file "Doc.docx" (Docx []) (put_file "Doc.md" (Markdown "# T") docx_refused)).
Proof. reflexivity. Qed.

Example run_on_bell :
  _run bell_content "Doc" blank_disk
  = (Return (error_message xml_error), put_file "Doc.md" (Markdown bell_content) blank_disk).
Proof. reflexivity. Qed.

(** The [try] block does raise on such disks. *)
Example body_raises :
  fst (_run_body "# T" "Doc" md_refused) = Raise (Exception "disk full").
Proof. reflexivity. Qed.

(** C4, as stated, fails: when the markdown file cannot be written the
    DOCX file is not written either, although nothing stops it. *)
Lemma writes_are_not_independent : ~ each_write_independent.
Proof.
  intros H. destruct (H "# T" "Doc" md_refused) as [_ Hdocx].
  assert (Hs : is_Some (store (snd (_run "# T" "Doc" md_refused)) !! docx_path "Doc"))
    by (apply Hdocx; reflexivity).
  destruct Hs as [b Hb]. vm_compute in Hb. discriminate Hb.
Qed.

(** C4, amended: the run writes the markdown file, builds the document and
    then saves the DOCX file, all in one [try].  When the markdown write
    fails it returns one error string with the cause and nothing more is
    attempted; when python-docx refuses a line it returns one error string
    with the cause, the markdown file stays and no DOCX file is saved; when
    the save of the DOCX fails it returns one error string with the cause
    and the markdown file stays; otherwise it returns the message naming
    both paths.  A failed write leaves at its path whatever it had got to,
    and nothing is rolled back. *)
Theorem run_writes_in_sequence (content project_name : string) (d : Disk) :
  _run content project_name d =
  match fault d (md_path project_name) with
  | Some f => (Return (error_message (fault_error f)), leave (md_path project_name) f d)
  | None =>
      let d1 := put_file (md_path project_name) (Markdown content) d in
      match build_document content with
      | Raise e => (Return (error_message e), d1)
      | Return doc =>
          match fault d (docx_path project_name) with
          | Some f =>
              (Return (error_message (fault_error f)), leave (docx_path project_name) f d1)
          | None =>
              (Return (success_message project_name),
               put_file (docx_path project_name) (Docx doc) d1)
          end
      end
  end.
Proof.
  unfold _run, try_except, _run_body, bind, write, building.
  destruct (fault d (md_path project_name)) as [f|] eqn:Hmd; [reflexivity|].
  destruct (build_document content) as [doc|e]; [|reflexivity].
  simpl. destruct (fault d (docx_path project_name)) as [f|]; reflexivity.
Qed.


End GeneratorEffects.

(** ** The codebase scanner *)

Section ScannerProperties.
Import Scanner.

Ltac open_try :=
  unfold try_except, try_block, bind, when, reading, ret,
    set_language, extend_endpoints, append_auth, append_security.

Ltac split_cases :=
  repeat match goal with
         | |- context [match ?x with Return _ => _ | Raise _ => _ end] => destruct x
         | |- context [if ?b then _ else _] => destruct b
         end.

(** The [try] block and its handler never touch the file list. *)
Lemma try_keeps_files (t : Tree) (path file : string) (r : Analysis) :
  files (snd (try_except (try_block t path file) (fun _ => ret tt) r)) = files r.
Proof. open_try. split_cases; reflexivity. Qed.

Lemma files_scan_file (t : Tree) (root file : string) (r : Analysis) :
  files (scan_file t root r file)
  = files r ++ (if eligible file then [path_join root file] else []).
Proof.
  unfold scan_file. destruct (eligible file).
  - rewrite try_keeps_files. reflexivity.
  - now rewrite app_nil_r.
Qed.

Lemma files_scan_root (t : Tree) (entry : string * list string) (r : Analysis) :
  files (scan_root t r entry)
  = files r ++ map (path_join (fst entry)) (List.filter eligible (snd entry)).
Proof.
  unfold scan_root. destruct entry as [root fs]; simpl. revert r.
  induction fs as [|f fs IH]; intros r; simpl.
  - now rewrite app_nil_r.
  - rewrite IH, files_scan_file. destruct (eligible f); simpl.
    + now rewrite <- app_assoc.
    + now rewrite app_nil_r.
Qed.

(** The file list is every eligible path, in the order of the walk. *)
Lemma files_scan (t : Tree) (top : string) :
  files (scan t top)
  = flat_map (fun e => map (path_join (fst e)) (List.filter eligible (snd e))) (walk t top).
Proof.
  unfold scan. simpl.
  assert (G : forall entries r,
             files (fold_left (scan_root t) entries r)
             = files r ++ flat_map (fun e => map (path_join (fst e))
                                                 (List.filter eligible (snd e))) entries).
  { induction entries as [|e entries IH]; intros r; simpl.
    - now rewrite app_nil_r.
    - rewrite IH, files_scan_root, <- app_assoc. reflexivity. }
  rewrite G. reflexivity.
Qed.

(** A path that is not an archive is scanned in place, and the tree is
    left as it was. *)
Lemma run_directory (extractall : string -> string -> Py Tree unit)
      (codebase_path : string) (t : Tree) :
  endswith codebase_path ".zip" = false ->
  _run extractall codebase_path t = (Return (scan t codebase_path), t).
Proof. intros H. unfold _run, bind. rewrite H. reflexivity. Qed.

Example scan_unreadable :
  scan (one_file unreadable) "proj"
  = mkAnalysis "unknown" ["proj/app.py"] [] [] [] [] "1 files | unknown | 0 endpoints".
Proof. reflexivity. Qed.

Example scan_flask :
  scan (one_file (readable flask_text)) "proj"
  = mkAnalysis "Python Web" ["proj/app.py"] ["app.get('/x')"] [] [] []
               "1 files | Python Web | 1 endpoints".
Proof. reflexivity. Qed.

Example scan_login_secret :
  scan (one_file (readable login_secret_text)) "proj"
  = mkAnalysis "Python Web" ["proj/app.py"] [] ["OAuth/JWT detected"] []
               ["Possible secret in app.py"] "1 files | Python Web | 0 endpoints".
Proof. reflexivity. Qed.

Lemma met_one_file (f : SourceFile) : met (one_file f) "proj" "proj" "app.py".
Proof. exists ["app.py"]. repeat split; simpl; auto. Qed.

(** C3, as stated, fails: a file that cannot be read is still listed. *)
Lemma unreadable_file_is_listed : ~ unreadable_files_are_excluded.
Proof.
  intros H.
  apply (H (one_file unreadable) "proj" "proj" "app.py").
  - apply met_one_file.
  - left. exists (Exception "Permission denied"). reflexivity.
  - rewrite scan_unreadable. simpl. left. reflexivity.
Qed.

(** C3, amended: when reading a file met by the walk raises, no error
    reaches the caller: the run returns a record.  The path of the file is
    in the file list of that record, and the turn of the loop for the file
    adds its path to the file list and nothing to the endpoints, the auth
    methods and the security issues. *)
Theorem read_errors_are_swallowed
        (extractall : string -> string -> Py Tree unit)
        (t : Tree) (top root file : string) :
  endswith top ".zip" = false ->
  met t top root file -> read_error t (path_join root file) ->
  (exists r, _run extractall top t = (Return r, t)
             /\ In (path_join root file) (files r))
  /\ forall acc,
       files (scan_file t root acc file) = files acc ++ [path_join root file]
       /\ endpoints (scan_file t root acc file) = endpoints acc
       /\ auth_methods (scan_file t root acc file) = auth_methods acc
       /\ security_issues (scan_file t root acc file) = security_issues acc.
Proof.
  intros Hzip (fs & Hwalk & Hfile & Hel) Herr. split.
  - exists (scan t top). split; [now apply run_directory|].
    rewrite files_scan. apply in_flat_map. exists (root, fs). split; [exact Hwalk|].
    simpl. apply in_map, filter_In. auto.
  - intros acc. unfold scan_file. rewrite Hel. open_try.
    destruct Herr as [[e He]|(text & e & Hl & Hweb & Hs)].
    + rewrite He. simpl. auto.
    + rewrite Hl, Hweb, Hs. simpl. auto.
Qed.

Lemma read_errors_are_swallowed_witness :
  endswith "proj" ".zip" = false
  /\ met (one_file unreadable) "proj" "proj" "app.py"
  /\ read_error (one_file unreadable) (path_join "proj" "app.py")
  /\ (exists r, _run no_zip "proj" (one_file unreadable) = (Return r, one_file unreadable)
             /\ In "proj/app.py" (files r))
  /\ forall acc,
       files (scan_file (one_file unreadable) "proj" acc "app.py")
       = files acc ++ ["proj/app.py"]
       /\ endpoints (scan_file (one_file unreadable) "proj" acc "app.py") = endpoints acc
       /\ auth_methods (scan_file (one_file unreadable) "proj" acc "app.py")
          = auth_methods acc
       /\ security_issues (scan_file (one_file unreadable) "proj" acc "app.py")
          = security_issues acc.
Proof.
  assert (Herr : read_error (one_file unreadable) (path_join "proj" "app.py")).
  { left. exists (Exception "Permission denied"). reflexivity. }
  split; [reflexivity|]. split; [apply met_one_file|]. split; [exact Herr|].
  exact (read_errors_are_swallowed no_zip (one_file unreadable) "proj" "proj" "app.py"
           eq_refl (met_one_file unreadable) Herr).
Defined.

(** C5, as stated, fails: an indented matching line is stored without
    its indentation. *)
Lemma endpoint_lines_are_not_verbatim : ~ endpoints_are_verbatim.
Proof.
  intros H.
  destruct (H (one_file (readable flask_text)) "proj" "app.py" initial
              flask_text flask_text eq_refl eq_refl eq_refl eq_refl) as [E|E];
    vm_compute in E; discriminate E.
Qed.

(** C5, amended: for a file taken for a web framework whose second read
    succeeds, the scanner appends to the endpoint list, in the order of
    the lines and keeping repetitions, each line that contains [get(] or
    [post(], with the white space at both of its ends stripped. *)
Theorem endpoints_are_stripped_matching_lines
        (t : Tree) (root file : string) (acc : Analysis) (text raw : string) :
  eligible file = true ->
  lenient (source t (path_join root file)) = Return text ->
  any_in ["fastapi"; "flask"; "@app.route"; "router."] (lower text) = true ->
  strict (source t (path_join root file)) = Return raw ->
  endpoints (scan_file t root acc file)
  = endpoints acc
    ++ map strip (List.filter (fun l => contains "get(" l || contains "post(" l)
                              (file_lines raw)).
Proof.
  intros Hel Hl Hweb Hs. unfold scan_file. rewrite Hel. open_try.
  rewrite Hl, Hweb, Hs. fold is_endpoint_line. split_cases; reflexivity.
Qed.

Lemma endpoints_are_stripped_matching_lines_witness :
  eligible "app.py" = true
  /\ any_in ["fastapi"; "flask"; "@app.route"; "router."] (lower flask_text) = true
  /\ endpoints (scan_file (one_file (readable flask_text)) "proj" initial "app.py")
     = endpoints initial
       ++ map strip (List.filter (fun l => contains "get(" l || contains "post(" l)
                                 (file_lines flask_text)).
Proof.
  split; [reflexivity|]. split; [reflexivity|].
  exact (endpoints_are_stripped_matching_lines
           (one_file (readable flask_text)) "proj" "app.py" initial
           flask_text flask_text eq_refl eq_refl eq_refl eq_refl).
Defined.

Lemma scan_file_same_source (t1 t2 : Tree) (root file : string) (r : Analysis) :
  (eligible file = true ->
   source t2 (path_join root file) = source t1 (path_join root file)) ->
  scan_file t2 root r file = scan_file t1 root r file.
Proof.
  intros H. unfold scan_file. destruct (eligible file); [|reflexivity].
  unfold try_block. rewrite (H eq_refl). reflexivity.
Qed.

(** The record of a scan depends on the tree only through what the walk
    yields and what the eligible files of the walk read as. *)
Lemma scan_same_directory (t1 t2 : Tree) (top : string) :
  walk t2 top = walk t1 top ->
  (forall root fs file,
      In (root, fs) (walk t1 top) -> In file fs -> eligible file = true ->
      source t2 (path_join root file) = source t1 (path_join root file)) ->
  scan t2 top = scan t1 top.
Proof.
  intros Hwalk Hsrc. unfold scan. rewrite Hwalk.
  assert (G : forall entries r,
             (forall e, In e entries -> In e (walk t1 top)) ->
             fold_left (scan_root t2) entries r = fold_left (scan_root t1) entries r).
  { induction entries as [|[root fs] entries IH]; intros r Hsub; [reflexivity|].
    simpl. rewrite IH by (intros e He; apply Hsub; now right). f_equal.
    unfold scan_root. simpl.
    assert (Hin : In (root, fs) (walk t1 top)) by (apply Hsub; now left).
    assert (F : forall l r0, (forall f, In f l -> In f fs) ->
                             fold_left (scan_file t2 root) l r0
                             = fold_left (scan_file t1 root) l r0).
    { induction l as [|f l IHl]; intros r0 Hl; [reflexivity|].
      simpl. rewrite IHl by (intros g Hg; apply Hl; now right). f_equal.
      apply scan_file_same_source. intros He.
      apply (Hsrc root fs f Hin); [apply Hl; now left | exact He]. }
    apply F; auto. }
  rewrite (G (walk t1 top) initial) by auto. reflexivity.
Qed.

(** C7: two scans of a directory return the same record, field by field,
    whenever the directory is unchanged between them: the walk yields the
    same roots and file names and the eligible files it meets read the
    same, whatever else changed in the file system.  A scan leaves the tree
    as it was. *)
Theorem scanning_twice_is_identical
        (extractall : string -> string -> Py Tree unit) (path : string) (t1 t2 : Tree) :
  endswith path ".zip" = false ->
  walk t2 path = walk t1 path ->
  (forall root fs file,
      In (root, fs) (walk t1 path) -> In file fs -> eligible file = true ->
      source t2 (path_join root file) = source t1 (path_join root file)) ->
  exists r : Analysis,
    _run extractall path t1 = (Return r, t1)
    /\ _run extractall path t2 = (Return r, t2).
Proof.
  intros Hzip Hwalk Hsrc. exists (scan t1 path). split.
  - now apply run_directory.
  - rewrite (run_directory extractall path t2 Hzip).
    now rewrite (scan_same_directory t1 t2 path Hwalk Hsrc).
Qed.

Lemma same_directory_elsewhere (root file : string) (fs : list string) :
  In (root, fs) (walk (one_file (readable flask_text)) "proj") -> In file fs ->
  eligible file = true ->
  source (one_file_amid (readable flask_text)) (path_join root file)
  = source (one_file (readable flask_text)) (path_join root file).
Proof.
  simpl. intros [E|[]] Hf _. inversion E; subst. destruct Hf as [<-|[]]. reflexivity.
Qed.

Lemma scanning_twice_is_identical_witness :
  endswith "proj" ".zip" = false
  /\ walk (one_file_amid (readable flask_text)) "proj"
     = walk (one_file (readable flask_text)) "proj"
  /\ source (one_file_amid (readable flask_text)) "other/b.py"
     <> source (one_file (readable flask_text)) "other/b.py"
  /\ exists r : Analysis,
       _run no_zip "proj" (one_file (readable flask_text))
       = (Return r, one_file (readable flask_text))
       /\ _run no_zip "proj" (one_file_amid (readable flask_text))
          = (Return r, one_file_amid (readable flask_text)).
Proof.
  split; [reflexivity|]. split; [reflexivity|]. split; [discriminate|].
  exact (scanning_twice_is_identical no_zip "proj" (one_file (readable flask_text))
           (one_file_amid (readable flask_text)) eq_refl eq_refl
           (fun root fs file => same_directory_elsewhere root file fs)).
Defined.

Lemma fold_no_files (t : Tree) (entries : list (string * list string)) (r : Analysis) :
  Forall (fun e => snd e = []) entries -> fold_left (scan_root t) entries r = r.
Proof.
  induction 1 as [|e entries He _ IH]; simpl; [reflexivity|].
  unfold scan_root at 2. rewrite He. simpl. exact IH.
Qed.

(** C8: the scan of a directory in which the walk meets no file returns
    a record with no file, no endpoint and the summary of zero files. *)
Theorem scan_empty_directory
        (extractall : string -> string -> Py Tree unit) (path : string) (t : Tree) :
  endswith path ".zip" = false ->
  Forall (fun e => snd e = []) (walk t path) ->
  exists r : Analysis,
    _run extractall path t = (Return r, t)
    /\ files r = [] /\ endpoints r = []
    /\ architecture r = "0 files | unknown | 0 endpoints".
Proof.
  intros Hzip Hempty. exists (scan t path). split; [now apply run_directory|].
  unfold scan. rewrite (fold_no_files t _ initial Hempty). repeat split.
Qed.

Lemma scan_empty_directory_witness :
  endswith "empty" ".zip" = false
  /\ Forall (fun e => snd e = []) (walk empty_dir "empty")
  /\ exists r : Analysis,
       _run no_zip "empty" empty_dir = (Return r, empty_dir)
       /\ files r = [] /\ endpoints r = []
       /\ architecture r = "0 files | unknown | 0 endpoints".
Proof.
  assert (Hempty : Forall (fun e : string * list string => snd e = [])
                          (walk empty_dir "empty")).
  { simpl. constructor; [reflexivity | constructor]. }
  split; [reflexivity|]. split; [exact Hempty|].
  exact (scan_empty_directory no_zip "empty" empty_dir eq_refl Hempty).
Defined.

(** Content that has the login route inside passes the web-framework
    test once lowered. *)
Lemma login_route_is_web (text : string) :
  contains "@app.route('/login')" text = true ->
  any_in ["fastapi"; "flask"; "@app.route"; "router."] (lower text) = true.
Proof.
  intros H. apply contains_lower in H.
  assert (G : contains "@app.route" (lower text) = true).
  { apply (contains_trans _ (lower "@app.route('/login')")); [reflexivity | exact H]. }
  unfold any_in, existsb. rewrite G. now rewrite !orb_true_r.
Qed.

Lemma jwt_is_auth (text : string) :
  contains "jwt" text = true ->
  any_in ["jwt"; "oauth"; "passport"; "auth0"] (lower text) = true.
Proof.
  intros H. apply contains_lower in H. change (lower "jwt") with "jwt" in H.
  unfold any_in, existsb. now rewrite H.
Qed.

(** C9, as stated, fails: content with the two substrings may also hold
    a password assignment, which is reported. *)
Lemma login_jwt_scenario_fails : ~ login_jwt_scenario.
Proof.
  intros H.
  destruct (H (one_file (readable login_secret_text)) "proj" "proj" "app.py"
              login_secret_text eq_refl eq_refl eq_refl eq_refl eq_refl eq_refl)
    as (_ & _ & E).
  rewrite scan_login_secret in E. discriminate E.
Qed.

(** C9, amended: for a tree of one eligible file that both reads give,
    whose content has [@app.route('/login')] and [jwt] inside and, once
    lowered, does not have [password] together with [=] or [hardcoded],
    the scan records exactly one auth-method entry and no security issue;
    the language is [Python Web], or [Node.js Express] when the lowered
    content also has [express] inside. *)
Theorem login_jwt_file_detected (t : Tree) (top root file text raw : string) :
  walk t top = [(root, [file])] -> eligible file = true ->
  lenient (source t (path_join root file)) = Return text ->
  strict (source t (path_join root file)) = Return raw ->
  contains "@app.route('/login')" text = true -> contains "jwt" text = true ->
  contains "password" (lower text)
    && (contains "=" (lower text) || contains "hardcoded" (lower text)) = false ->
  auth_methods (scan t top) = ["OAuth/JWT detected"]
  /\ language (scan t top)
     = (if contains "express" (lower text) then "Node.js Express" else "Python Web")
  /\ security_issues (scan t top) = [].
Proof.
  intros Hwalk Hel Hl Hs Hroute Hjwt Hsecret.
  apply login_route_is_web in Hroute. apply jwt_is_auth in Hjwt.
  unfold scan. rewrite Hwalk. simpl fold_left. unfold scan_root. simpl fold_left.
  unfold scan_file. rewrite Hel. open_try.
  rewrite Hl, Hroute, Hs, Hjwt, Hsecret.
  destruct (contains "express" (lower text)); repeat split.
Qed.

Lemma login_jwt_file_detected_witness :
  contains "@app.route('/login')" login_text = true
  /\ contains "jwt" login_text = true
  /\ contains "password" (lower login_text)
       && (contains "=" (lower login_text) || contains "hardcoded" (lower login_text))
     = false
  /\ auth_methods (scan (one_file (readable login_text)) "proj") = ["OAuth/JWT detected"]
  /\ language (scan (one_file (readable login_text)) "proj")
     = (if contains "express" (lower login_text) then "Node.js Express" else "Python Web")
  /\ security_issues (scan (one_file (readable login_text)) "proj") = [].
Proof.
  split; [reflexivity|]. split; [reflexivity|]. split; [reflexivity|].
  exact (login_jwt_file_detected (one_file (readable login_text)) "proj" "proj" "app.py"
           login_text login_text eq_refl eq_refl eq_refl eq_refl eq_refl eq_refl eq_refl).
Defined.

End ScannerProperties.

(** ** The workflow driver *)

Section WorkflowProperties.
Import Workflow.

Lemma unlines_cons (x : string) (rest : list string) :
  unlines (x :: rest) = x +:+ NL +:+ unlines rest.
Proof. reflexivity. Qed.

(** Every line of a text is inside it. *)
Lemma contains_unlines (x : string) (l : list string) :
  In x l -> contains x (unlines l) = true.
Proof.
  induction l as [|y l IH]; intros H; [destruct H|].
  rewrite unlines_cons. destruct H as [->|H].
  - apply contains_app_l, contains_self.
  - apply contains_app_r, contains_app_r, IH, H.
Qed.

(** The template names its sections whatever is filled in. *)
Lemma template_has_headers (prompt : string) (fd : Findings) (date : string) :
  Forall (fun h => contains h (fallback_document prompt fd date) = true) template_headers.
Proof.
  unfold template_headers, fallback_document.
  repeat constructor; apply contains_unlines; cbn [In];
    repeat (try (left; reflexivity); right).
Qed.

Lemma template_not_empty (prompt : string) (fd : Findings) (date : string) :
  fallback_document prompt fd date <> "".
Proof.
  unfold fallback_document. rewrite unlines_cons, append_cons. discriminate.
Qed.

Section Machine.
Context {W : Type}.
Variable path_exists : string -> W -> bool.
Variable now : W -> string.
Variable analyze : string -> Py W AnalysisValue.
Variable render : string -> string -> Py W (list string).
Variable hosted : Hosted.

Local Abbreviation run_docagent_workflow :=
  (Workflow.run_docagent_workflow path_exists now analyze render hosted).
Local Abbreviation run_fallback_workflow :=
  (Workflow.run_fallback_workflow path_exists now analyze render).
Local Abbreviation fallback_analysis := (Workflow.fallback_analysis path_exists analyze).
Local Abbreviation call_render := (Workflow.call_render render).

Lemma unavailable_runs_fallback (prompt : string) (codebase_path : option string) :
  unavailable hosted = true ->
  run_docagent_workflow prompt codebase_path = run_fallback_workflow prompt codebase_path.
Proof.
  unfold unavailable, Workflow.run_docagent_workflow.
  destruct (AGENT_SDK_AVAILABLE hosted); [|reflexivity].
  destruct (create_foundry_agents hosted); [|reflexivity].
  destruct (get_agent_client hosted); [discriminate|reflexivity].
Qed.

(** Step 1 leaves the status of the results at [success_fallback]. *)
Lemma fallback_analysis_status (codebase_path : option string) (s s1 : Local)
      (fd : Findings) (res0 : gmap string Value) :
  fallback_analysis codebase_path s = (Return (fd, res0), s1) ->
  res0 !! "status" = Some (VStr "success_fallback").
Proof.
  unfold Workflow.fallback_analysis, bind, ret, Workflow.call_analyze.
  destruct codebase_path as [p|].
  - destruct (truthy p && path_exists p (world s)).
    + destruct (analyze p (world s)) as [[a|e] w]; intros H; inversion H; subst.
      rewrite lookup_insert_ne by discriminate. reflexivity.
    + intros H; inversion H; subst. reflexivity.
  - intros H; inversion H; subst. reflexivity.
Qed.

(** C2, amended: when the hosted service is unavailable the driver runs
    the fallback.  If the analysis step or the render step raises, the
    result has status [error] with the description of the error.
    Otherwise the result has status [success_fallback], the list of
    rendered files, and a documentation string that is not empty and
    has the headers of BRD, FRD, NFRD, Security Requirements,
    Compliance & Standards and Architecture Overview. *)
Theorem fallback_result (prompt : string) (codebase_path : option string) (s : Local) :
  unavailable hosted = true ->
  match fallback_analysis codebase_path s with
  | (Raise e, s1) =>
      run_docagent_workflow prompt codebase_path s = (Return (error_result e), s1)
  | (Return (fd, res0), s1) =>
      let doc := fallback_document prompt fd (now (world s1)) in
      doc <> ""
      /\ Forall (fun h => contains h doc = true) template_headers
      /\ match call_render doc output_dir s1 with
         | (Raise e, s2) =>
             run_docagent_workflow prompt codebase_path s = (Return (error_result e), s2)
         | (Return rendered, s2) =>
             exists res : gmap string Value,
               run_docagent_workflow prompt codebase_path s = (Return res, s2)
               /\ res !! "status" = Some (VStr "success_fallback")
               /\ res !! "documentation" = Some (VStr doc)
               /\ res !! "rendered_files" = Some (VPaths rendered)
         end
  end.
Proof.
  intros Hun. rewrite (unavailable_runs_fallback prompt codebase_path Hun).
  unfold Workflow.run_fallback_workflow, try_except, fallback_body, bind.
  destruct (fallback_analysis codebase_path s) as [[[fd res0]|e] s1] eqn:Ha;
    [|reflexivity].
  cbn [fst snd]. split; [apply template_not_empty|].
  split; [apply template_has_headers|].
  destruct (call_render _ output_dir s1) as [[rendered|e] s2]; [|reflexivity].
  eexists. split; [reflexivity|].
  apply fallback_analysis_status in Ha.
  repeat split.
  - rewrite !lookup_insert_ne by discriminate. exact Ha.
  - rewrite lookup_insert_ne by discriminate. apply lookup_insert_eq.
  - apply lookup_insert_eq.
Qed.

(** C6: when the run of the orchestrator agent raises, the driver
    returns the result of status [error] with the description of the
    error, and the machine is as it was: no call into the tools was
    made, so nothing was rendered and nothing written. *)
Theorem hosted_error_stops_workflow
        (prompt : string) (codebase_path : option string) (s : Local)
        (orchestrator_id : string) (e : exn) :
  AGENT_SDK_AVAILABLE hosted = true ->
  create_foundry_agents hosted = Some orchestrator_id ->
  get_agent_client hosted = true ->
  create_thread_and_process_run hosted orchestrator_id
    (user_message prompt codebase_path) = Raise e ->
  exists res : gmap string Value,
    run_docagent_workflow prompt codebase_path s = (Return res, s)
    /\ res !! "status" = Some (VStr "error")
    /\ res !! "error" = Some (VStr (str_of_exn e))
    /\ res !! "rendered_files" = None.
Proof.
  intros Hsdk Hagents Hclient Hrun. exists (error_result e).
  unfold Workflow.run_docagent_workflow. rewrite Hsdk, Hagents, Hclient. simpl.
  unfold try_except, hosted_body, bind, asking. rewrite Hrun.
  repeat split.
Qed.

(** The same holds when fetching the last message raises. *)
Lemma message_error_stops_workflow
      (prompt : string) (codebase_path : option string) (s : Local)
      (orchestrator_id : string) (run : RunInfo) (e : exn) :
  AGENT_SDK_AVAILABLE hosted = true ->
  create_foundry_agents hosted = Some orchestrator_id ->
  get_agent_client hosted = true ->
  create_thread_and_process_run hosted orchestrator_id
    (user_message prompt codebase_path) = Return run ->
  run_status run = "completed" ->
  get_last_message_text hosted (thread_id run) = Raise e ->
  run_docagent_workflow prompt codebase_path s = (Return (error_result e), s).
Proof.
  intros Hsdk Hagents Hclient Hrun Hdone Hmsg.
  unfold Workflow.run_docagent_workflow. rewrite Hsdk, Hagents, Hclient. simpl.
  unfold try_except, hosted_body, bind, asking. rewrite Hrun, Hdone. simpl.
  rewrite Hmsg. reflexivity.
Qed.
End Machine.

Example fallback_run :
  run_docagent_workflow no_path clock analyze_ok render_ok sdk_missing
                        "Generate docs" None start
  = (Return (<["rendered_files" := VPaths ["./outputs/Documentation_Package.md";
                                           "./outputs/Documentation_Package.docx"]]>
               (<["documentation" :=
                    VStr (fallback_document "Generate docs" (mkFindings [] [] [])
                                            "2025-01-01 00:00:00")]> results0)),
     mkLocal tt [CallRender (fallback_document "Generate docs" (mkFindings [] [] [])
                                               "2025-01-01 00:00:00") "./outputs"]).
Proof. reflexivity. Qed.

Example fallback_run_render_fails :
  run_docagent_workflow no_path clock analyze_ok render_fails sdk_missing
                        "Generate docs" None start
  = (Return {[ "status" := VStr "error";
               "error" := VStr "No space left on device" ]},
     mkLocal tt [CallRender (fallback_document "Generate docs" (mkFindings [] [] [])
                                               "2025-01-01 00:00:00") "./outputs"]).
Proof. reflexivity. Qed.

Example template_lacks_header :
  contains "Security & Compliance"
           (fallback_document "Generate docs" (mkFindings [] [] []) "2025-01-01 00:00:00")
  = false.
Proof. vm_compute. reflexivity. Qed.

(** C2, as stated, fails: the documentation of the fallback has no
    [Security & Compliance] header. *)
Lemma fallback_lacks_security_header : ~ fallback_always_succeeds.
Proof.
  intros H.
  destruct (H unit no_path clock analyze_ok render_ok sdk_missing
              "Generate docs" None start eq_refl)
    as (res & s' & doc & Hrun & _ & Hdoc & _ & Hall).
  rewrite fallback_run in Hrun. inversion Hrun; subst res s'; clear Hrun.
  rewrite lookup_insert_ne in Hdoc by discriminate.
  rewrite lookup_insert_eq in Hdoc. inversion Hdoc; subst doc; clear Hdoc.
  unfold five_headers in Hall.
  apply Forall_cons_1 in Hall as [_ Hall].
  apply Forall_cons_1 in Hall as [_ Hall].
  apply Forall_cons_1 in Hall as [_ Hall].
  apply Forall_cons_1 in Hall as [Hsec _].
  rewrite template_lacks_header in Hsec. discriminate Hsec.
Qed.

Lemma fallback_result_witness :
  unavailable sdk_missing = true
  /\ match fallback_analysis no_path analyze_ok None start with
     | (Raise e, s1) =>
         run_docagent_workflow no_path clock analyze_ok render_ok sdk_missing
                               "Generate docs" None start
         = (Return (error_result e), s1)
     | (Return (fd, res0), s1) =>
         let doc := fallback_document "Generate docs" fd (clock (world s1)) in
         doc <> ""
         /\ Forall (fun h => contains h doc = true) template_headers
         /\ match call_render render_ok doc output_dir s1 with
            | (Raise e, s2) =>
                run_docagent_workflow no_path clock analyze_ok render_ok sdk_missing
                                      "Generate docs" None start
                = (Return (error_result e), s2)
            | (Return rendered, s2) =>
                exists res : gmap string Value,
                  run_docagent_workflow no_path clock analyze_ok render_ok sdk_missing
                                        "Generate docs" None start
                  = (Return res, s2)
                  /\ res !! "status" = Some (VStr "success_fallback")
                  /\ res !! "documentation" = Some (VStr doc)
                  /\ res !! "rendered_files" = Some (VPaths rendered)
            end
     end.
Proof.
  split; [reflexivity|].
  exact (fallback_result no_path clock analyze_ok render_ok sdk_missing
                         "Generate docs" None start eq_refl).
Defined.

Lemma hosted_error_stops_workflow_witness :
  create_thread_and_process_run run_fails "asst_1" (user_message "Generate docs" None)
  = Raise (Exception "HTTP 503")
  /\ exists res : gmap string Value,
       run_docagent_workflow no_path clock analyze_ok render_ok run_fails
                             "Generate docs" None start
       = (Return res, start)
       /\ res !! "status" = Some (VStr "error")
       /\ res !! "error" = Some (VStr "HTTP 503")
       /\ res !! "rendered_files" = None.
Proof.
  split; [reflexivity|].
  exact (hosted_error_stops_workflow no_path clock analyze_ok render_ok run_fails
           "Generate docs" None start "asst_1" (Exception "HTTP 503")
           eq_refl eq_refl eq_refl eq_refl).
Defined.

End WorkflowProperties.

(** * Further properties *)

(** ** The document generator: what reaches the disk *)

Section GeneratorOutputs.
Import Generator.

Lemma md_docx_distinct (project_name : string) :
  md_path project_name <> docx_path project_name.
Proof.
  unfold md_path, docx_path.
  induction project_name as [|c n IH]; [discriminate|].
  rewrite !append_cons. intros H. inversion H. auto.
Qed.

(** X1: when both paths can be written and python-docx takes every line,
    the run returns the message naming both files, and afterwards the
    markdown file holds the content as given and the DOCX file holds the
    document built from it. *)
Theorem successful_run_outputs (content project_name : string) (d : Disk)
        (doc : list Block) :
  fault d (md_path project_name) = None ->
  fault d (docx_path project_name) = None ->
  build_document content = Return doc ->
  let d' := snd (_run content project_name d) in
  fst (_run content project_name d) = Return (success_message project_name)
  /\ store d' !! md_path project_name = Some (Markdown content)
  /\ store d' !! docx_path project_name = Some (Docx doc).
Proof.
  intros Hmd Hdocx Hdoc. unfold _run, try_except, _run_body, bind, write, building.
  rewrite Hmd, Hdoc. simpl. rewrite Hdocx. simpl. split; [reflexivity|]. split.
  - rewrite lookup_insert_ne by (intros E; symmetry in E; revert E; apply md_docx_distinct).
    apply lookup_insert_eq.
  - apply lookup_insert_eq.
Qed.

Lemma successful_run_outputs_witness :
  build_document "# T" = Return [title; Heading "T" 1]
  /\ let d' := snd (_run "# T" "Doc" blank_disk) in
     fst (_run "# T" "Doc" blank_disk) = Return (success_message "Doc")
     /\ store d' !! md_path "Doc" = Some (Markdown "# T")
     /\ store d' !! docx_path "Doc" = Some (Docx [title; Heading "T" 1]).
Proof.
  split; [reflexivity|].
  exact (successful_run_outputs "# T" "Doc" blank_disk [title; Heading "T" 1]
           eq_refl eq_refl eq_refl).
Defined.

(** X2: whatever happens, the run changes no file other than its two
    outputs, and the paths that cannot be written stay the same. *)
Theorem run_touches_only_outputs (content project_name path : string) (d : Disk) :
  path <> md_path project_name -> path <> docx_path project_name ->
  store (snd (_run content project_name d)) !! path = store d !! path
  /\ fault (snd (_run content project_name d)) = fault d.
Proof.
  intros Hmd Hdocx. unfold _run, try_except, _run_body, bind, write, building, leave.
  destruct (fault d (md_path project_name)) as [f|].
  - destruct (fault_residue f); simpl; split; try reflexivity.
    now rewrite lookup_insert_ne by congruence.
  - destruct (build_document content) as [doc|e]; simpl.
    + destruct (fault d (docx_path project_name)) as [f|]; simpl.
      * destruct (fault_residue f); simpl; split; try reflexivity;
          now rewrite !lookup_insert_ne by congruence.
      * split; [|reflexivity]. now rewrite !lookup_insert_ne by congruence.
    + split; [|reflexivity]. now rewrite lookup_insert_ne by congruence.
Qed.

Lemma run_touches_only_outputs_witness :
  store (snd (_run "# T" "Doc" (put_file "keep.txt" (Markdown "k") docx_refused)))
    !! "keep.txt"
  = store (put_file "keep.txt" (Markdown "k") docx_refused) !! "keep.txt"
  /\ fault (snd (_run "# T" "Doc" (put_file "keep.txt" (Markdown "k") docx_refused)))
     = fault (put_file "keep.txt" (Markdown "k") docx_refused).
Proof.
  apply (run_touches_only_outputs "# T" "Doc" "keep.txt"); discriminate.
Defined.

Lemma stored_text_app (a b : string) :
  stored_text (a +:+ b) = stored_text a +:+ stored_text b.
Proof.
  induction a as [|c a IH]; [reflexivity|].
  rewrite append_cons. simpl. now rewrite IH, append_cons.
Qed.

(** Text without a carriage return is stored as it is. *)
Lemma stored_text_plain (s : string) : mentions cr s = false -> stored_text s = s.
Proof.
  induction s as [|c s IH]; [reflexivity|]. simpl. intros H.
  apply orb_false_iff in H as [Hc Hs]. rewrite Hc. f_equal. auto.
Qed.

(** A character that is not in a content is in none of its lines. *)
Lemma split_lines_mentions (c : ascii) (s : string) :
  mentions c s = false -> Forall (fun line => mentions c line = false) (split_lines s).
Proof.
  induction s as [|a s IH]; cbn [split_lines]; intros H; [repeat constructor|].
  simpl in H. apply orb_false_iff in H as [Ha Hs]. specialize (IH Hs).
  destruct (Ascii.eqb a nl); [constructor; auto|].
  destruct (split_lines s) as [|l ls]; [repeat constructor; simpl; now rewrite Ha|].
  inversion IH; subst. constructor; [|assumption].
  simpl. rewrite Ha. assumption.
Qed.

Lemma hashes_marker (p : string) (lvl : nat) : In (p, lvl) markers -> hashes lvl = p.
Proof.
  simpl. intros [E|[E|[E|[]]]]; inversion E; reflexivity.
Qed.

Lemma stored_marker (p : string) (lvl : nat) : In (p, lvl) markers -> stored_text p = p.
Proof.
  simpl. intros [E|[E|[E|[]]]]; inversion E; reflexivity.
Qed.

Lemma line_of_blocks (line : string) :
  map line_of_block (blocks_in_order markers line)
  = if nonblank line then [stored_text line] else [].
Proof.
  unfold blocks_in_order.
  destruct (find _ markers) as [[p lvl]|] eqn:Hf.
  - apply find_some in Hf as [Hin Hs]. simpl in Hs.
    rewrite (marker_line_nonblank line p lvl Hin Hs). simpl.
    rewrite (hashes_marker p lvl Hin). f_equal.
    rewrite (startswith_inv p line Hs) at 2.
    now rewrite stored_text_app, (stored_marker p lvl Hin).
  - destruct (nonblank line); reflexivity.
Qed.

Lemma line_of_blocks_all (lines : list string) :
  map line_of_block (flat_map (blocks_in_order markers) lines)
  = map stored_text (List.filter nonblank lines).
Proof.
  induction lines as [|l ls IH]; [reflexivity|].
  simpl. rewrite map_app, line_of_blocks, IH.
  destruct (nonblank l); reflexivity.
Qed.

Lemma stored_lines_plain (lines : list string) :
  Forall (fun line => mentions cr line = false) lines ->
  map stored_text (List.filter nonblank lines) = List.filter nonblank lines.
Proof.
  induction 1 as [|l ls Hl _ IH]; [reflexivity|].
  simpl. destruct (nonblank l); simpl; [|exact IH].
  now rewrite stored_text_plain, IH.
Qed.

Example saved_document_example :
  map line_of_block [title; Heading ("A b" +:+ NL) 2; Paragraph " x"]
  = [" Documentation Package"; "## A b" +:+ NL; " x"].
Proof. reflexivity. Qed.

(** X3: when both paths can be written and python-docx takes every line,
    the DOCX file saved by the run holds the title and then blocks which,
    written back as markdown (the marker of the level before a heading's
    text, a paragraph's text as it is), are the non-blank lines of the
    content in their order, with each carriage return read back as a line
    feed; for a content without carriage returns they are exactly its
    non-blank lines.  The lines are the pieces of the content between its
    newlines. *)
Theorem document_round_trip (content project_name : string) (d : Disk) :
  fault d (md_path project_name) = None ->
  fault d (docx_path project_name) = None ->
  forallb line_ok (split_lines content) = true ->
  exists body : list Block,
    store (snd (_run content project_name d)) !! docx_path project_name
    = Some (Docx (title :: body))
    /\ map line_of_block body = map stored_text (List.filter nonblank (split_lines content))
    /\ (mentions cr content = false ->
        map line_of_block body = List.filter nonblank (split_lines content))
    /\ join NL (split_lines content) = content.
Proof.
  intros Hmd Hdocx Hok.
  exists (flat_map (blocks_in_order markers) (split_lines content)).
  assert (Hdoc : build_document content
                 = Return (title :: flat_map (blocks_in_order markers)
                                             (split_lines content))).
  { rewrite build_document_spec, Hok. reflexivity. }
  split; [|split; [apply line_of_blocks_all|split; [|apply join_split_lines]]].
  - unfold _run, try_except, _run_body, bind, write, building.
    rewrite Hmd, Hdoc. simpl. rewrite Hdocx. simpl. apply lookup_insert_eq.
  - intros Hcr. rewrite line_of_blocks_all.
    apply stored_lines_plain, split_lines_mentions, Hcr.
Qed.

Lemma document_round_trip_witness :
  forallb line_ok (split_lines ("## A b " +:+ NL +:+ NL +:+ " x")) = true
  /\ exists body : list Block,
       store (snd (_run ("## A b " +:+ NL +:+ NL +:+ " x") "Doc" blank_disk))
         !! docx_path "Doc"
       = Some (Docx (title :: body))
       /\ map line_of_block body
          = map stored_text
                (List.filter nonblank (split_lines ("## A b " +:+ NL +:+ NL +:+ " x")))
       /\ (mentions cr ("## A b " +:+ NL +:+ NL +:+ " x") = false ->
           map line_of_block body
           = List.filter nonblank (split_lines ("## A b " +:+ NL +:+ NL +:+ " x")))
       /\ join NL (split_lines ("## A b " +:+ NL +:+ NL +:+ " x"))
          = "## A b " +:+ NL +:+ NL +:+ " x".
Proof.
  split; [reflexivity|].
  exact (document_round_trip ("## A b " +:+ NL +:+ NL +:+ " x") "Doc" blank_disk
           eq_refl eq_refl eq_refl).
Defined.

Lemma endswith_length (s p : string) :
  endswith s p = true -> String.length p <= String.length s.
Proof.
  induction s as [|c s IH]; cbn [endswith]; intros H.
  - rewrite orb_false_r in H. apply String.eqb_eq in H. subst p. simpl. lia.
  - apply orb_true_iff in H as [H|H].
    + apply String.eqb_eq in H. subst p. simpl. lia.
    + apply IH in H. simpl. lia.
Qed.

Lemma endswith_refl (s : string) : endswith s s = true.
Proof. destruct s; cbn [endswith]; rewrite String.eqb_refl; reflexivity. Qed.

(** Of two endings of one string, the shorter ends the longer. *)
Lemma endswith_nested (s p q : string) :
  endswith s p = true -> endswith s q = true ->
  String.length p <= String.length q -> endswith q p = true.
Proof.
  induction s as [|c s IH]; cbn [endswith]; intros Hp Hq Hlen.
  - rewrite orb_false_r in Hp, Hq.
    apply String.eqb_eq in Hp, Hq. subst p q. reflexivity.
  - apply orb_true_iff in Hp as [Hp|Hp]; apply orb_true_iff in Hq as [Hq|Hq].
    + apply String.eqb_eq in Hp, Hq. subst p q. apply endswith_refl.
    + apply String.eqb_eq in Hp. subst p. apply endswith_length in Hq.
      simpl in Hlen. lia.
    + apply String.eqb_eq in Hq. subst q. cbn [endswith]. rewrite Hp. apply orb_true_r.
    + now apply IH.
Qed.

Lemma endswith_app (a p : string) : endswith (a +:+ p) p = true.
Proof.
  induction a as [|c a IH]; [apply endswith_refl|].
  rewrite append_cons. cbn [endswith]. rewrite IH. apply orb_true_r.
Qed.

(** X4: the scanner never takes a file the generator writes for a source
    file: neither output path has an eligible extension, whatever the
    project name. *)
Theorem outputs_are_not_eligible (project_name : string) :
  Scanner.eligible (md_path project_name) = false
  /\ Scanner.eligible (docx_path project_name) = false.
Proof.
  assert (G : forall suffix, (suffix = ".md" \/ suffix = ".docx") ->
                Scanner.eligible (project_name +:+ suffix) = false).
  { intros suffix Hs. unfold Scanner.eligible.
    destruct (existsb _ Scanner.extensions) eqn:E; [|reflexivity].
    apply existsb_exists in E as (ext & Hin & He).
    pose proof (endswith_app project_name suffix) as Hsuf.
    simpl in Hin.
    destruct Hs as [-> | ->];
      destruct Hin as [<-|[<-|[<-|[<-|[<-|[<-|[]]]]]]];
      first [ pose proof (endswith_nested _ _ _ He Hsuf ltac:(simpl; lia)) as F;
              discriminate F
            | pose proof (endswith_nested _ _ _ Hsuf He ltac:(simpl; lia)) as F;
              discriminate F ]. }
  split; apply G; auto.
Qed.

End GeneratorOutputs.

(** ** The codebase scanner: what a record can hold *)

Section ScannerInvariants.
Import Scanner.

Ltac unfold_try :=
  unfold try_except, try_block, bind, when, reading, ret,
    set_language, extend_endpoints, append_auth, append_security, append_file.

Ltac by_cases :=
  repeat match goal with
         | |- context [match ?x with Return _ => _ | Raise _ => _ end] => destruct x
         | |- context [if ?b then _ else _] => destruct b
         end.

(** What holds of the fresh record and is kept by the turn of every file
    of the walk holds of the record of the scan. *)
Lemma scan_invariant (P : Analysis -> Prop) (t : Tree) (top : string) :
  P initial ->
  (forall root fs file r,
      In (root, fs) (walk t top) -> In file fs -> P r -> P (scan_file t root r file)) ->
  P (fold_left (scan_root t) (walk t top) initial).
Proof.
  intros H0 Hstep.
  assert (G : forall entries r,
             (forall e, In e entries -> In e (walk t top)) -> P r ->
             P (fold_left (scan_root t) entries r)).
  { induction entries as [|[root fs] entries IH]; intros r Hsub Hr; [exact Hr|].
    simpl. apply IH; [intros e He; apply Hsub; now right|].
    unfold scan_root. simpl.
    assert (Hin : In (root, fs) (walk t top)) by (apply Hsub; now left).
    assert (F : forall l r0, (forall f, In f l -> In f fs) -> P r0 ->
                             P (fold_left (scan_file t root) l r0)).
    { induction l as [|f l IHl]; intros r0 Hl Hr0; [exact Hr0|].
      simpl. apply IHl; [intros g Hg; apply Hl; now right|].
      apply (Hstep root fs f r0 Hin); [apply Hl; now left | exact Hr0]. }
    apply F; auto. }
  apply G; auto.
Qed.

(** X5: a path is in the file list of a scan exactly when it is the join
    of a root of the walk and one of its file names with an eligible
    extension; whether the file can be read plays no part. *)
Theorem listed_iff_walked (t : Tree) (top path : string) :
  In path (files (scan t top)) <-> walked t top path.
Proof.
  rewrite files_scan, in_flat_map. unfold walked. split.
  - intros ([root fs] & Hw & Hin). simpl in Hin.
    apply in_map_iff in Hin as (file & <- & Hf).
    apply filter_In in Hf as [Hf He]. exists root, fs, file. auto.
  - intros (root & fs & file & Hw & Hf & He & ->).
    exists (root, fs). split; [exact Hw|]. simpl.
    apply in_map, filter_In. auto.
Qed.

(** X6: the language of a record is one of [unknown], [Python Web] and
    [Node.js Express], and its [databases] list is always empty: no step of
    the scan fills it. *)
Theorem scan_language_and_databases (t : Tree) (top : string) :
  In (language (scan t top)) ["unknown"; "Python Web"; "Node.js Express"]
  /\ databases (scan t top) = [].
Proof.
  unfold scan. simpl.
  apply (scan_invariant
           (fun r => In (language r) ["unknown"; "Python Web"; "Node.js Express"]
                     /\ databases r = []) t top).
  - simpl. auto.
  - intros root fs file r _ _ [Hl Hd]. unfold scan_file.
    destruct (eligible file); [|auto].
    unfold_try. by_cases; simpl in *; auto.
Qed.

(** X7: every auth-method entry is the one tag [OAuth/JWT detected]; a file
    adds at most one auth-method entry and at most one security issue, so
    neither list is longer than the file list. *)
Theorem findings_per_file (t : Tree) (top : string) :
  Forall (fun a => a = "OAuth/JWT detected") (auth_methods (scan t top))
  /\ length (auth_methods (scan t top)) <= length (files (scan t top))
  /\ length (security_issues (scan t top)) <= length (files (scan t top)).
Proof.
  unfold scan. simpl.
  apply (scan_invariant
           (fun r => Forall (fun a => a = "OAuth/JWT detected") (auth_methods r)
                     /\ length (auth_methods r) <= length (files r)
                     /\ length (security_issues r) <= length (files r)) t top).
  - simpl. auto.
  - intros root fs file r _ _ (Ha & Hla & Hls). unfold scan_file.
    destruct (eligible file); [|auto].
    unfold_try. by_cases; simpl;
      rewrite ?length_app, ?Forall_app; simpl; repeat split; auto; lia.
Qed.

(** X8: every security issue names a file of the walk: it is
    [Possible secret in ] followed by the name, without its directory, of an
    eligible file that the walk yields. *)
Theorem security_issues_name_walked_files (t : Tree) (top : string) :
  Forall (fun issue =>
            exists root fs file,
              In (root, fs) (walk t top) /\ In file fs /\ eligible file = true
              /\ issue = "Possible secret in " +:+ file)
         (security_issues (scan t top)).
Proof.
  unfold scan. simpl.
  apply (scan_invariant
           (fun r => Forall (fun issue =>
                               exists root fs file,
                                 In (root, fs) (walk t top) /\ In file fs
                                 /\ eligible file = true
                                 /\ issue = "Possible secret in " +:+ file)
                            (security_issues r)) t top).
  - constructor.
  - intros root fs file r Hw Hf Hr. unfold scan_file.
    destruct (eligible file) eqn:He; [|exact Hr].
    unfold_try. by_cases; simpl; try exact Hr;
      apply Forall_app; (split; [exact Hr|]);
      (apply List.Forall_cons; [|apply List.Forall_nil]);
      exists root, fs, file; repeat split; auto.
Qed.

(** X9: endpoints are only taken from files that name a web framework:
    when no eligible file of the walk has one of [fastapi], [flask],
    [@app.route] and [router.] in its lowered content, the endpoint list
    is empty, whatever [get(] and [post(] lines the files hold, and the
    language is not [Python Web]. *)
Theorem no_framework_no_endpoints (t : Tree) (top : string) :
  (forall root fs file text,
      In (root, fs) (walk t top) -> In file fs -> eligible file = true ->
      lenient (source t (path_join root file)) = Return text ->
      any_in web_markers (lower text) = false) ->
  endpoints (scan t top) = [] /\ language (scan t top) <> "Python Web".
Proof.
  intros Hno. unfold scan. simpl.
  apply (scan_invariant
           (fun r => endpoints r = [] /\ language r <> "Python Web") t top).
  - split; [reflexivity | discriminate].
  - intros root fs file r Hw Hf [He Hl]. unfold scan_file.
    destruct (eligible file) eqn:Hel; [|auto].
    unfold_try.
    destruct (lenient (source t (path_join root file))) as [text|e] eqn:Hread;
      [|simpl; auto].
    change ["fastapi"; "flask"; "@app.route"; "router."] with web_markers.
    rewrite (Hno root fs file text Hw Hf Hel Hread).
    by_cases; simpl; split; auto; discriminate.
Qed.

Example scan_client :
  scan (one_file (readable client_text)) "proj"
  = mkAnalysis "unknown" ["proj/app.py"] [] [] [] [] "1 files | unknown | 0 endpoints".
Proof. reflexivity. Qed.

Lemma client_has_no_framework (root file text : string) (fs : list string) :
  In (root, fs) (walk (one_file (readable client_text)) "proj") -> In file fs ->
  eligible file = true ->
  lenient (source (one_file (readable client_text)) (path_join root file)) = Return text ->
  any_in web_markers (lower text) = false.
Proof. intros _ _ _ H. simpl in H. inversion H. reflexivity. Qed.

Lemma no_framework_no_endpoints_witness :
  is_endpoint_line "r = requests.get('http://x')" = true
  /\ endpoints (scan (one_file (readable client_text)) "proj") = []
  /\ language (scan (one_file (readable client_text)) "proj") <> "Python Web".
Proof.
  split; [reflexivity|].
  exact (no_framework_no_endpoints (one_file (readable client_text)) "proj"
           (fun root fs file text => client_has_no_framework root file text fs)).
Defined.

End ScannerInvariants.

(** ** The workflow driver: every way a run can end *)

Section WorkflowOutcomes.
Import Workflow.

Lemma take_prefix (n : nat) (s : string) : startswith s (take n s) = true.
Proof.
  unfold take. revert s; induction n as [|n IH]; intros [|c s]; simpl; try reflexivity.
  apply startswith_cons. auto.
Qed.

Lemma take_length (n : nat) (s : string) :
  String.length (take n s) = Nat.min n (String.length s).
Proof.
  unfold take. revert s; induction n as [|n IH]; intros [|c s]; simpl; try reflexivity.
  now rewrite IH.
Qed.

Section Machine.
Context {W : Type}.
Variable path_exists : string -> W -> bool.
Variable now : W -> string.
Variable analyze : string -> Py W AnalysisValue.
Variable render : string -> string -> Py W (list string).
Variable hosted : Hosted.

Local Abbreviation run_docagent_workflow :=
  (Workflow.run_docagent_workflow path_exists now analyze render hosted).
Local Abbreviation run_fallback_workflow :=
  (Workflow.run_fallback_workflow path_exists now analyze render).
Local Abbreviation fallback_analysis := (Workflow.fallback_analysis path_exists analyze).

Lemma error_result_status (e : exn) :
  error_result e !! "status" = Some (VStr "error").
Proof. reflexivity. Qed.

Lemma fallback_returns_status (prompt : string) (codebase_path : option string) (s : Local) :
  exists res s' st,
    run_fallback_workflow prompt codebase_path s = (Return res, s')
    /\ res !! "status" = Some (VStr st) /\ In st statuses.
Proof.
  unfold Workflow.run_fallback_workflow, try_except, fallback_body, bind.
  destruct (fallback_analysis codebase_path s) as [[[fd res0]|e] s1] eqn:Ha.
  - cbn [fst snd].
    destruct (call_render render _ output_dir s1) as [[rendered|e] s2].
    + eexists _, _, "success_fallback". split; [reflexivity|]. split; [|simpl; tauto].
      rewrite !lookup_insert_ne by discriminate.
      apply (fallback_analysis_status path_exists analyze codebase_path s s1 fd res0 Ha).
    + exists (error_result e), s2, "error". repeat split. simpl; tauto.
  - exists (error_result e), s1, "error". repeat split. simpl; tauto.
Qed.

(** X10: the driver never raises: on every prompt and path, whatever the
    hosted service and the tools do, it returns a result whose [status] is
    one of [success], [success_fallback], [failed], [error] and
    [no_output]. *)
Theorem workflow_always_returns_status
        (prompt : string) (codebase_path : option string) (s : Local) :
  exists (res : gmap string Value) (s' : Local) (st : string),
    run_docagent_workflow prompt codebase_path s = (Return res, s')
    /\ res !! "status" = Some (VStr st) /\ In st statuses.
Proof.
  unfold Workflow.run_docagent_workflow.
  destruct (AGENT_SDK_AVAILABLE hosted); simpl; [|apply fallback_returns_status].
  destruct (create_foundry_agents hosted) as [orchestrator_id|];
    [|apply fallback_returns_status].
  destruct (get_agent_client hosted); simpl; [|apply fallback_returns_status].
  unfold hosted_body, try_except, bind, asking.
  destruct (create_thread_and_process_run hosted _ _) as [run|e].
  - destruct (String.eqb (run_status run) "completed"); simpl.
    + destruct (get_last_message_text hosted (thread_id run)) as [[doc|]|e].
      * destruct (call_render render doc output_dir s) as [[rendered|e] s2];
          eexists _, _, "success"; (split; [reflexivity|]); split;
            [reflexivity | simpl; tauto | reflexivity | simpl; tauto].
      * eexists _, _, "no_output". split; [reflexivity|]. split; [reflexivity|simpl; tauto].
      * exists (error_result e), s, "error". repeat split. simpl; tauto.
    + eexists _, _, "failed". split; [reflexivity|]. split; [reflexivity|simpl; tauto].
  - exists (error_result e), s, "error". repeat split. simpl; tauto.
Qed.

(** X11: when the run completes and the thread has a last assistant
    message, the result has status [success] and carries that message
    unchanged as the documentation and its first 500 characters as the
    preview; render is called once, with the message and [./outputs], and
    if it raises the error is dropped and the rendered file list is
    empty. *)
Theorem hosted_success
        (prompt : string) (codebase_path : option string) (s : Local)
        (orchestrator_id doc : string) (run : RunInfo) :
  AGENT_SDK_AVAILABLE hosted = true ->
  create_foundry_agents hosted = Some orchestrator_id ->
  get_agent_client hosted = true ->
  create_thread_and_process_run hosted orchestrator_id
    (user_message prompt codebase_path) = Return run ->
  run_status run = "completed" ->
  get_last_message_text hosted (thread_id run) = Return (Some doc) ->
  exists (res : gmap string Value) (s' : Local) (preview : string),
    run_docagent_workflow prompt codebase_path s = (Return res, s')
    /\ res !! "status" = Some (VStr "success")
    /\ res !! "documentation" = Some (VStr doc)
    /\ res !! "preview" = Some (VStr preview)
    /\ startswith doc preview = true
    /\ String.length preview = Nat.min 500 (String.length doc)
    /\ res !! "rendered_files"
       = Some (VPaths match fst (render doc output_dir (world s)) with
                      | Return rendered => rendered
                      | Raise _ => []
                      end)
    /\ calls s' = calls s ++ [CallRender doc output_dir].
Proof.
  intros Hsdk Hagents Hclient Hrun Hdone Hmsg.
  unfold Workflow.run_docagent_workflow. rewrite Hsdk, Hagents, Hclient. simpl.
  unfold hosted_body, try_except, bind, asking. rewrite Hrun, Hdone. simpl.
  rewrite Hmsg. unfold call_render.
  destruct (render doc output_dir (world s)) as [[rendered|e] w]; simpl;
    eexists _, _, (take 500 doc); (split; [reflexivity|]);
      repeat split; auto using take_prefix, take_length.
Qed.

(** X12: when the run ends in a status other than [completed], the result
    has status [failed] with the status of the run as its error; when it
    completes but the thread has no assistant message, the result has
    status [no_output].  In both cases the machine is left as it was:
    nothing is rendered. *)
Theorem hosted_run_without_document
        (prompt : string) (codebase_path : option string) (s : Local)
        (orchestrator_id : string) (run : RunInfo) :
  AGENT_SDK_AVAILABLE hosted = true ->
  create_foundry_agents hosted = Some orchestrator_id ->
  get_agent_client hosted = true ->
  create_thread_and_process_run hosted orchestrator_id
    (user_message prompt codebase_path) = Return run ->
  (run_status run <> "completed" ->
   run_docagent_workflow prompt codebase_path s
   = (Return {[ "status" := VStr "failed"; "error" := VStr (run_status run) ]}, s))
  /\ (run_status run = "completed" ->
      get_last_message_text hosted (thread_id run) = Return None ->
      run_docagent_workflow prompt codebase_path s
      = (Return {[ "status" := VStr "no_output" ]}, s)).
Proof.
  intros Hsdk Hagents Hclient Hrun.
  unfold Workflow.run_docagent_workflow. rewrite Hsdk, Hagents, Hclient. simpl.
  unfold hosted_body, try_except, bind, asking. rewrite Hrun. split.
  - intros Hne. apply String.eqb_neq in Hne. rewrite Hne. reflexivity.
  - intros Hdone Hmsg. rewrite Hdone. simpl. rewrite Hmsg. reflexivity.
Qed.

(** X13: with no codebase path, an empty one or one that does not exist,
    the fallback makes no call to the analysis tool: its only call into
    the tools is the render of the template filled with the prompt, the
    date and the placeholders of an empty analysis. *)
Theorem fallback_without_codebase
        (prompt : string) (codebase_path : option string) (s : Local) :
  unavailable hosted = true ->
  match codebase_path with
  | Some p => truthy p && path_exists p (world s)
  | None => false
  end = false ->
  calls (snd (run_docagent_workflow prompt codebase_path s))
  = calls s ++ [CallRender (fallback_document prompt (mkFindings [] [] []) (now (world s)))
                           output_dir].
Proof.
  intros Hun Hpath.
  rewrite (unavailable_runs_fallback path_exists now analyze render hosted
             prompt codebase_path Hun).
  unfold Workflow.run_fallback_workflow, try_except, fallback_body, bind,
    Workflow.fallback_analysis.
  assert (E : match codebase_path with
              | Some p =>
                  if truthy p && path_exists p (world s)
                  then (analysis <- call_analyze analyze p ;;
                        ret (analysis_dict_of analysis,
                             <["analysis" := VAnalysis analysis]> results0)) s
                  else (Return (mkFindings [] [] [], results0), s)
              | None => (Return (mkFindings [] [] [], results0), s)
              end = (Return (mkFindings [] [] [], results0), s)).
  { destruct codebase_path as [p|]; [rewrite Hpath|]; reflexivity. }
  rewrite E. cbn [fst snd]. unfold call_render, ret.
  destruct (render _ output_dir (world s)) as [[rendered|e] w]; reflexivity.
Qed.

(** X14: when the analysis tool raises in the fallback, the result has
    status [error] with the description of the error, and the render step
    is not attempted: the analysis is the only call into the tools. *)
Theorem fallback_analysis_error
        (prompt p : string) (s : Local) (e : exn) (w : W) :
  unavailable hosted = true ->
  truthy p && path_exists p (world s) = true ->
  analyze p (world s) = (Raise e, w) ->
  run_docagent_workflow prompt (Some p) s
  = (Return (error_result e), mkLocal w (calls s ++ [CallAnalyze p])).
Proof.
  intros Hun Hpath Han.
  rewrite (unavailable_runs_fallback path_exists now analyze render hosted
             prompt (Some p) Hun).
  unfold Workflow.run_fallback_workflow, fallback_body, Workflow.fallback_analysis,
    try_except, bind.
  rewrite Hpath. unfold bind, call_analyze. rewrite Han. reflexivity.
Qed.

End Machine.

Lemma hosted_success_witness :
  exists (res : gmap string Value) (s' : Local) (preview : string),
    run_docagent_workflow no_path clock analyze_ok render_fails (completes "# Doc")
                          "Generate docs" None start
    = (Return res, s')
    /\ res !! "status" = Some (VStr "success")
    /\ res !! "documentation" = Some (VStr "# Doc")
    /\ res !! "preview" = Some (VStr preview)
    /\ startswith "# Doc" preview = true
    /\ String.length preview = Nat.min 500 (String.length "# Doc")
    /\ res !! "rendered_files"
       = Some (VPaths match fst (render_fails "# Doc" output_dir (world start)) with
                      | Return rendered => rendered
                      | Raise _ => []
                      end)
    /\ calls s' = calls start ++ [CallRender "# Doc" output_dir].
Proof.
  exact (hosted_success no_path clock analyze_ok render_fails (completes "# Doc")
           "Generate docs" None start "asst_1" "# Doc" (mkRun "thread_1" "run_1" "completed")
           eq_refl eq_refl eq_refl eq_refl eq_refl eq_refl).
Defined.

Lemma hosted_run_without_document_witness :
  run_docagent_workflow no_path clock analyze_ok render_ok expires
                        "Generate docs" None start
  = (Return {[ "status" := VStr "failed"; "error" := VStr "expired" ]}, start)
  /\ run_docagent_workflow no_path clock analyze_ok render_ok silent
                           "Generate docs" None start
     = (Return {[ "status" := VStr "no_output" ]}, start).
Proof.
  split.
  - apply (proj1 (hosted_run_without_document no_path clock analyze_ok render_ok expires
                    "Generate docs" None start "asst_1" (mkRun "thread_1" "run_1" "expired")
                    eq_refl eq_refl eq_refl eq_refl)).
    discriminate.
  - exact (proj2 (hosted_run_without_document no_path clock analyze_ok render_ok silent
                    "Generate docs" None start "asst_1" (mkRun "thread_1" "run_1" "completed")
                    eq_refl eq_refl eq_refl eq_refl) eq_refl eq_refl).
Defined.

Lemma fallback_without_codebase_witness :
  unavailable sdk_missing = true
  /\ calls (snd (run_docagent_workflow any_path clock analyze_ok render_ok sdk_missing
                                       "Generate docs" (Some "") start))
     = calls start
       ++ [CallRender (fallback_document "Generate docs" (mkFindings [] [] [])
                                         (clock (world start))) output_dir].
Proof.
  split; [reflexivity|].
  exact (fallback_without_codebase any_path clock analyze_ok render_ok sdk_missing
           "Generate docs" (Some "") start eq_refl eq_refl).
Defined.

Lemma fallback_analysis_error_witness :
  run_docagent_workflow any_path clock analyze_fails render_ok sdk_missing
                        "Generate docs" (Some "proj") start
  = (Return (error_result (Exception "cannot read")),
     mkLocal tt (calls start ++ [CallAnalyze "proj"])).
Proof.
  exact (fallback_analysis_error any_path clock analyze_fails render_ok sdk_missing
           "Generate docs" "proj" start (Exception "cannot read") tt
           eq_refl eq_refl eq_refl).
Defined.

(** X15: the documentation of the fallback quotes the prompt and the date
    as they are given, on their own lines of the template. *)
Theorem template_quotes_prompt_and_date (prompt date : string) (fd : Findings) :
  contains ("Generated based on: " +:+ prompt +:+ NL) (fallback_document prompt fd date) = true
  /\ contains ("Date: " +:+ date +:+ NL) (fallback_document prompt fd date) = true.
Proof.
  assert (G : forall x l, In x l -> contains (x +:+ NL) (unlines l) = true).
  { intros x l. induction l as [|y l IH]; intros H; [destruct H|].
    rewrite unlines_cons. destruct H as [->|H].
    - rewrite <- string_app_assoc. apply contains_app_l, contains_self.
    - apply contains_app_r, contains_app_r, IH, H. }
  unfold fallback_document.
  split; rewrite <- string_app_assoc; apply G; cbn [In];
    repeat (try (left; reflexivity); right).
Qed.

(** X16: the template lists at most five security findings: the findings
    after the fifth change nothing in the documentation. *)
Theorem template_keeps_five_findings
        (prompt date : string) (fs eps sec : list string) :
  fallback_document prompt (mkFindings fs eps sec) date
  = fallback_document prompt (mkFindings fs eps (firstn 5 sec)) date.
Proof.
  unfold fallback_document. cbn [found_files api_endpoints security_findings].
  rewrite firstn_firstn. destruct sec; reflexivity.
Qed.

End WorkflowOutcomes.

(** ** The crew *)

Section CrewProperties.
Import CrewSetup.

(** X17: for every prompt and path the crew runs its four tasks in
    sequence, every task is given to one of the agents of the crew, and the
    context of a task only holds tasks that stand before it in the list, so
    each output a task is given exists when the task starts. *)
Theorem crew_dependencies_precede (user_prompt : string) (codebase_path : option string) :
  let crew := create_docagent_crew user_prompt codebase_path in
  process crew = sequential
  /\ length (tasks crew) = 4
  /\ forall (i : nat) (t : Task),
       tasks crew !! i = Some t ->
       In (agent t) (agents crew)
       /\ forall d, In d (context t) -> exists j, j < i /\ tasks crew !! j = Some d.
Proof.
  cbv zeta. split; [reflexivity|]. split; [reflexivity|].
  intros i t Ht.
  destruct i as [|[|[|[|i]]]]; simpl in Ht; inversion Ht; subst t; clear Ht.
  - split; [simpl; tauto|]. intros d [].
  - split; [simpl; tauto|]. intros d [<-|[]]. exists 0. split; [lia|reflexivity].
  - split; [simpl; tauto|]. intros d [<-|[]]. exists 1. split; [lia|reflexivity].
  - split; [simpl; tauto|].
    intros d [<-|[<-|[<-|[]]]];
      [exists 0 | exists 1 | exists 2]; (split; [lia|reflexivity]).
Qed.

End CrewProperties.

(** ** The agent setup *)

Section AgentsProperties.
Import Agents.

Lemma note_agent_lookup (acc : gmap string AgentRec) (x : AgentRec) (n : string)
      (a : AgentRec) :
  note_agent acc x !! n = Some a ->
  acc !! n = Some a \/ (a = x /\ agent_name a = n /\ In n agent_names).
Proof.
  unfold note_agent.
  destruct (existsb (String.eqb (agent_name x)) agent_names) eqn:E; [|auto].
  destruct (decide (agent_name x = n)) as [<-|Hne].
  - rewrite lookup_insert_eq. intros H; inversion H; subst a. right.
    repeat split. apply existsb_exists in E as (m & Hm & Heq).
    apply String.eqb_eq in Heq. now subst m.
  - rewrite lookup_insert_ne by exact Hne. auto.
Qed.

Lemma fold_note_lookup (l : list AgentRec) (acc : gmap string AgentRec) (n : string)
      (a : AgentRec) :
  fold_left note_agent l acc !! n = Some a ->
  acc !! n = Some a \/ (In a l /\ agent_name a = n /\ In n agent_names).
Proof.
  revert acc; induction l as [|x l IH]; intros acc H; simpl in H; [auto|].
  apply IH in H as [H|(Hin & Hn & Hm)].
  - apply note_agent_lookup in H as [H|(-> & Hn & Hm)]; [auto|].
    right. repeat split; auto. now left.
  - right. repeat split; auto. now right.
Qed.

Example existing_of_example :
  existing_of two_listed
  = {[ "DocOrchestrator" := mkAgentRec "a1" "DocOrchestrator";
       "FormatterAgent" := mkAgentRec "a3" "FormatterAgent" ]}.
Proof. reflexivity. Qed.

(** X18: an agent is kept as existing under a name only if the listing
    yields it, the name is its own, and the name is one of the four agent
    names. *)
Theorem existing_agents_are_listed (listed : list AgentRec) (n : string) (a : AgentRec) :
  existing_of listed !! n = Some a ->
  In a listed /\ agent_name a = n /\ In n agent_names.
Proof.
  intros H. apply fold_note_lookup in H as [H|H]; [|exact H].
  rewrite lookup_empty in H. discriminate H.
Qed.

Lemma existing_agents_are_listed_witness :
  existing_of two_listed !! "FormatterAgent" = Some (mkAgentRec "a3" "FormatterAgent")
  /\ In (mkAgentRec "a3" "FormatterAgent") two_listed
  /\ agent_name (mkAgentRec "a3" "FormatterAgent") = "FormatterAgent"
  /\ In "FormatterAgent" agent_names.
Proof.
  split; [reflexivity|].
  exact (existing_agents_are_listed two_listed "FormatterAgent"
           (mkAgentRec "a3" "FormatterAgent") eq_refl).
Defined.

Section OnService.
Context {S : Type}.
Variable sdk : bool.
Variable getenv : string -> S -> option string.
Variable new_client : string -> Py S unit.
Variable import_tools : Py S unit.
Variable service_list_agents : S -> (list AgentRec * option exn) * S.
Variable service_create_agent : string -> string -> Py S AgentRec.
Variable service_delete_agent : string -> Py S unit.

Local Abbreviation get_agent_client := (Agents.get_agent_client sdk getenv new_client).
Local Abbreviation create_missing := (Agents.create_missing service_create_agent).
Local Abbreviation create_foundry_agents :=
  (Agents.create_foundry_agents sdk getenv new_client import_tools
                                service_list_agents service_create_agent).
Local Abbreviation list_agents :=
  (Agents.list_agents sdk getenv new_client service_list_agents).
Local Abbreviation delete_agent :=
  (Agents.delete_agent sdk getenv new_client service_delete_agent).
Local Abbreviation deploy_model_if_needed :=
  (Agents.deploy_model_if_needed sdk getenv new_client).

(** Getting the client never raises and makes no call on it. *)
Lemma get_agent_client_returns (s : Cloud) :
  exists r s', get_agent_client s = (Return r, s')
               /\ service_calls s' = service_calls s.
Proof.
  unfold Agents.get_agent_client, try_except, bind, quietly, ret.
  destruct sdk; simpl; [|eauto].
  destruct (getenv _ (service s)) as [cs|]; [|eauto].
  destruct (truthy cs); [|eauto].
  destruct (new_client cs (service s)) as [[[]|e] w]; simpl; eauto.
Qed.

(** When it returns, the creation step returns the four entries. *)
Lemma create_missing_shape (ex : gmap string AgentRec) (m : string) (s : Cloud) :
  match create_missing ex m s with
  | (Return res, _) => exists o c d f, res = agents_dict o c d f
  | (Raise _, _) => True
  end.
Proof.
  unfold Agents.create_missing, bind, create_or_reuse, calling, ret.
  repeat match goal with
         | |- context [ex !! ?n] => destruct (ex !! n)
         | |- context [service_create_agent ?a ?n ?w] =>
             destruct (service_create_agent a n w) as [[?|?] ?]; cbn [service service_calls]
         end; try exact I; eauto.
Qed.

(** X19: creating the agents never raises: it returns either the empty
    dict or a dict with exactly the four keys [orchestrator],
    [code_analyzer], [doc_generator] and [formatter]. *)
Theorem create_foundry_agents_shape (s : Cloud) :
  exists (res : gmap string AgentRec) (s' : Cloud),
    create_foundry_agents s = (Return res, s')
    /\ (res = ∅ \/ exists o c d f, res = agents_dict o c d f).
Proof.
  unfold Agents.create_foundry_agents.
  destruct sdk eqn:Hsdk; simpl; [|exists ∅, s; auto].
  unfold bind at 1.
  destruct (get_agent_client_returns s) as (r & s0 & Hc & _).
  rewrite Hsdk in Hc. rewrite Hc.
  destruct r as [cs|]; [|exists ∅, s0; auto].
  unfold try_except, create_body, bind at 1, quietly.
  destruct (import_tools (service s0)) as [[[]|e] w1]; [|eexists _, _; split; eauto; reflexivity].
  simpl.
  destruct (service_list_agents w1) as [[listed failure] w2].
  set (ex := existing_of listed).
  set (m := match getenv "DEPLOYMENT_NAME" (service s0) with
            | Some m => m | None => "gpt-4o-mini" end).
  set (s2 := mkCloud w2 (service_calls s0 ++ [ListAgents])).
  assert (G : exists res s',
             match create_missing ex m s2 with
             | (Return a, s') => (Return a, s')
             | (Raise e, s') => ret ∅ s'
             end = (Return res, s')
             /\ (res = ∅ \/ exists o c d f, res = agents_dict o c d f)).
  { pose proof (create_missing_shape ex m s2) as Hs.
    destruct (create_missing ex m s2) as [[res|e] s']; eexists _, _; split; eauto;
      reflexivity. }
  destruct failure; [exact G|].
  destruct (size ex =? 4); [|exact G].
  destruct (ex !! "DocOrchestrator"); [|exact G].
  destruct (ex !! "CodeAnalyzerAgent"); [|exact G].
  destruct (ex !! "DocGeneratorAgent"); [|exact G].
  destruct (ex !! "FormatterAgent"); [|exact G].
  eexists _, _. split; [reflexivity|]. right. eauto.
Qed.

(** The creation step with a service whose creations succeed: it asks
    for the missing names, in order, and returns the existing agents under
    their keys. *)
Lemma create_missing_calls (ex : gmap string AgentRec) (m : string) (s : Cloud) :
  (forall a n w, exists r w', service_create_agent a n w = (Return r, w')) ->
  exists res s',
    create_missing ex m s = (Return res, s')
    /\ service_calls s' = service_calls s ++ map (CreateAgent m) (missing ex)
    /\ (forall a, ex !! "DocOrchestrator" = Some a -> res !! "orchestrator" = Some a)
    /\ (forall a, ex !! "CodeAnalyzerAgent" = Some a -> res !! "code_analyzer" = Some a)
    /\ (forall a, ex !! "DocGeneratorAgent" = Some a -> res !! "doc_generator" = Some a)
    /\ (forall a, ex !! "FormatterAgent" = Some a -> res !! "formatter" = Some a).
Proof.
  intros Hcreate.
  unfold Agents.create_missing, bind, create_or_reuse, calling, ret, missing, agent_names.
  cbn [List.filter].
  destruct (ex !! "DocOrchestrator") as [o|], (ex !! "CodeAnalyzerAgent") as [c|],
    (ex !! "DocGeneratorAgent") as [d|], (ex !! "FormatterAgent") as [f|];
    repeat match goal with
           | |- context [service_create_agent ?a ?n ?w] =>
               let r := fresh "r" in
               let w' := fresh "w" in
               let E := fresh "E" in
               destruct (Hcreate a n w) as (r & w' & E); rewrite E;
               cbn [service service_calls]
           end;
    eexists _, _; (split; [reflexivity|]); cbn [service_calls map];
    (split; [rewrite <- ?app_assoc; rewrite ?app_nil_r; reflexivity|]);
    repeat split; intros a Ha; inversion Ha; subst; reflexivity.
Qed.

(** X20: with the client and the tools at hand and a service whose
    creations succeed, the setup lists the agents once and then asks the
    service to create exactly the agent names that the listing did not
    yield, in the order orchestrator, code analyzer, document generator,
    formatter; an agent that the listing yields is never created again and
    is returned under its key.  When the listing fails before it yields
    anything, all four are asked for. *)
Theorem existing_agents_are_not_created
        (s s0 : Cloud) (endpoint : string) (w1 w2 : S)
        (listed : list AgentRec) (failure : option exn) :
  sdk = true ->
  get_agent_client s = (Return (Some endpoint), s0) ->
  import_tools (service s0) = (Return tt, w1) ->
  service_list_agents w1 = ((listed, failure), w2) ->
  (forall a n w, exists r w', service_create_agent a n w = (Return r, w')) ->
  let model := match getenv "DEPLOYMENT_NAME" (service s0) with
               | Some m => m
               | None => "gpt-4o-mini"
               end in
  exists (res : gmap string AgentRec) (s' : Cloud),
    create_foundry_agents s = (Return res, s')
    /\ service_calls s'
       = service_calls s0
         ++ ListAgents :: map (CreateAgent model) (missing (existing_of listed))
    /\ (forall a, existing_of listed !! "DocOrchestrator" = Some a ->
                  res !! "orchestrator" = Some a)
    /\ (forall a, existing_of listed !! "CodeAnalyzerAgent" = Some a ->
                  res !! "code_analyzer" = Some a)
    /\ (forall a, existing_of listed !! "DocGeneratorAgent" = Some a ->
                  res !! "doc_generator" = Some a)
    /\ (forall a, existing_of listed !! "FormatterAgent" = Some a ->
                  res !! "formatter" = Some a).
Proof.
  intros Hsdk Hclient Himport Hlist Hcreate model.
  unfold Agents.create_foundry_agents. rewrite Hsdk in Hclient |- *. simpl.
  unfold bind at 1. rewrite Hclient.
  unfold try_except, create_body, bind at 1, quietly. rewrite Himport. simpl.
  rewrite Hlist. fold model.
  set (ex := existing_of listed).
  set (s2 := mkCloud w2 (service_calls s0 ++ [ListAgents])).
  assert (G : exists res s',
             match create_missing ex model s2 with
             | (Return a, s') => (Return a, s')
             | (Raise e, s') => ret ∅ s'
             end = (Return res, s')
             /\ service_calls s'
                = service_calls s0 ++ ListAgents :: map (CreateAgent model) (missing ex)
             /\ (forall a, ex !! "DocOrchestrator" = Some a -> res !! "orchestrator" = Some a)
             /\ (forall a, ex !! "CodeAnalyzerAgent" = Some a ->
                           res !! "code_analyzer" = Some a)
             /\ (forall a, ex !! "DocGeneratorAgent" = Some a ->
                           res !! "doc_generator" = Some a)
             /\ (forall a, ex !! "FormatterAgent" = Some a -> res !! "formatter" = Some a)).
  { destruct (create_missing_calls ex model s2 Hcreate) as (res & s' & E & Hc & Hrest).
    exists res, s'. rewrite E. split; [reflexivity|]. split; [|exact Hrest].
    rewrite Hc. subst s2. cbn [service_calls]. now rewrite <- app_assoc. }
  destruct failure; [exact G|].
  destruct (size ex =? 4); [|exact G].
  destruct (ex !! "DocOrchestrator") as [o|] eqn:Ho; [|exact G].
  destruct (ex !! "CodeAnalyzerAgent") as [c|] eqn:Hc; [|exact G].
  destruct (ex !! "DocGeneratorAgent") as [d|] eqn:Hd; [|exact G].
  destruct (ex !! "FormatterAgent") as [f|] eqn:Hf; [|exact G].
  eexists _, _. split; [reflexivity|]. split.
  - unfold missing, agent_names. cbn [List.filter]. rewrite Ho, Hc, Hd, Hf. reflexivity.
  - repeat split; intros a Ha; inversion Ha; subst; reflexivity.
Qed.

(** X21: a creation that fails part-way is not undone: when the
    orchestrator is created and the creation of the code analyzer raises,
    the setup returns the empty dict although the orchestrator now exists
    in the service, and the two other agents are not asked for. *)
Theorem failed_creation_is_not_undone
        (s s0 : Cloud) (endpoint : string) (w1 w2 w3 w4 : S)
        (listed : list AgentRec) (failure : option exn) (a : AgentRec) (e : exn) :
  sdk = true ->
  get_agent_client s = (Return (Some endpoint), s0) ->
  import_tools (service s0) = (Return tt, w1) ->
  service_list_agents w1 = ((listed, failure), w2) ->
  existing_of listed !! "DocOrchestrator" = None ->
  existing_of listed !! "CodeAnalyzerAgent" = None ->
  let model := match getenv "DEPLOYMENT_NAME" (service s0) with
               | Some m => m
               | None => "gpt-4o-mini"
               end in
  service_create_agent model "DocOrchestrator" w2 = (Return a, w3) ->
  service_create_agent model "CodeAnalyzerAgent" w3 = (Raise e, w4) ->
  create_foundry_agents s
  = (Return ∅,
     mkCloud w4 (service_calls s0 ++ [ListAgents; CreateAgent model "DocOrchestrator";
                                      CreateAgent model "CodeAnalyzerAgent"])).
Proof.
  intros Hsdk Hclient Himport Hlist Ho Hc model Hcreate1 Hcreate2.
  unfold Agents.create_foundry_agents. rewrite Hsdk in Hclient |- *. simpl.
  unfold bind at 1. rewrite Hclient.
  unfold try_except, create_body, bind at 1, quietly. rewrite Himport. simpl.
  rewrite Hlist. fold model.
  assert (G : match create_missing (existing_of listed) model
                      (mkCloud w2 (service_calls s0 ++ [ListAgents])) with
              | (Return r, s') => (Return r, s')
              | (Raise e', s') => ret ∅ s'
              end
              = (Return ∅,
                 mkCloud w4 (service_calls s0
                             ++ [ListAgents; CreateAgent model "DocOrchestrator";
                                 CreateAgent model "CodeAnalyzerAgent"]))).
  { unfold Agents.create_missing, bind, create_or_reuse, calling, ret.
    rewrite Ho, Hc. cbn [service service_calls]. rewrite Hcreate1.
    cbn [service service_calls]. rewrite Hcreate2.
    rewrite <- !app_assoc. reflexivity. }
  rewrite Ho. destruct failure; [exact G|].
  destruct (size (existing_of listed) =? 4); exact G.
Qed.

(** X22: the helpers never raise: getting the client, listing the agents,
    deleting an agent and deploying a model each return a value on every
    state.  Getting the client and deploying a model make no call on the
    service, whatever model is named. *)
Theorem helpers_never_raise (s : Cloud) :
  (exists r s', get_agent_client s = (Return r, s')
                /\ service_calls s' = service_calls s)
  /\ (exists r s', list_agents s = (Return r, s'))
  /\ (forall id, exists r s', delete_agent id s = (Return r, s'))
  /\ (forall model_name deployment_name,
         exists r s', deploy_model_if_needed model_name deployment_name s = (Return r, s')
                      /\ service_calls s' = service_calls s).
Proof.
  pose proof (get_agent_client_returns s) as Hc.
  split; [exact Hc|].
  destruct Hc as (r & s0 & Hc & Hcalls).
  unfold Agents.list_agents, Agents.delete_agent, Agents.deploy_model_if_needed.
  destruct sdk eqn:Hsdk; simpl; [|unfold ret; eauto 10].
  repeat split.
  - unfold bind. rewrite Hc. destruct r as [endpoint|]; [|unfold ret; eauto].
    unfold try_except, ret.
    destruct (service_list_agents (service s0)) as [[listed [e|]] w]; eauto.
  - intros id. unfold bind at 1. rewrite Hc.
    destruct r as [endpoint|]; [|unfold ret; eauto].
    unfold try_except, bind, calling, ret.
    destruct (service_delete_agent id (service s0)) as [[[]|e] w]; eauto.
  - intros _ _. unfold bind. rewrite Hc.
    destruct r as [endpoint|]; unfold try_except, ret; eauto.
Qed.

End OnService.

Example setup_reuses_and_creates :
  Agents.create_foundry_agents true env_set client_ok tools_ok (lists two_listed)
                               creates fresh
  = (Return (agents_dict (mkAgentRec "a1" "DocOrchestrator")
                         (mkAgentRec "new" "CodeAnalyzerAgent")
                         (mkAgentRec "new" "DocGeneratorAgent")
                         (mkAgentRec "a3" "FormatterAgent")),
     mkCloud tt [ListAgents; CreateAgent "gpt-4o-mini" "CodeAnalyzerAgent";
                 CreateAgent "gpt-4o-mini" "DocGeneratorAgent"]).
Proof. reflexivity. Qed.

Example setup_after_failed_listing :
  service_calls (snd (Agents.create_foundry_agents true env_set client_ok tools_ok
                                                   listing_fails creates fresh))
  = [ListAgents; CreateAgent "gpt-4o-mini" "DocOrchestrator";
     CreateAgent "gpt-4o-mini" "CodeAnalyzerAgent";
     CreateAgent "gpt-4o-mini" "DocGeneratorAgent";
     CreateAgent "gpt-4o-mini" "FormatterAgent"].
Proof. reflexivity. Qed.

Lemma creates_returns (a n : string) (w : unit) :
  exists r w', creates a n w = (Return r, w').
Proof. exists (mkAgentRec "new" n), w. reflexivity. Qed.

Lemma existing_agents_are_not_created_witness :
  exists (res : gmap string AgentRec) (s' : Cloud),
    Agents.create_foundry_agents true env_set client_ok tools_ok (lists two_listed)
                                 creates fresh
    = (Return res, s')
    /\ service_calls s'
       = service_calls fresh
         ++ ListAgents :: map (CreateAgent "gpt-4o-mini") (missing (existing_of two_listed))
    /\ (forall a, existing_of two_listed !! "DocOrchestrator" = Some a ->
                  res !! "orchestrator" = Some a)
    /\ (forall a, existing_of two_listed !! "CodeAnalyzerAgent" = Some a ->
                  res !! "code_analyzer" = Some a)
    /\ (forall a, existing_of two_listed !! "DocGeneratorAgent" = Some a ->
                  res !! "doc_generator" = Some a)
    /\ (forall a, existing_of two_listed !! "FormatterAgent" = Some a ->
                  res !! "formatter" = Some a).
Proof.
  exact (existing_agents_are_not_created true env_set client_ok tools_ok
           (lists two_listed) creates fresh fresh "https://p" tt tt two_listed None
           eq_refl eq_refl eq_refl eq_refl creates_returns).
Defined.

Lemma failed_creation_is_not_undone_witness :
  Agents.create_foundry_agents true env_set client_ok tools_ok (lists [])
                               creates_one fresh
  = (Return ∅,
     mkCloud tt (service_calls fresh
                 ++ [ListAgents; CreateAgent "gpt-4o-mini" "DocOrchestrator";
                     CreateAgent "gpt-4o-mini" "CodeAnalyzerAgent"])).
Proof.
  exact (failed_creation_is_not_undone true env_set client_ok tools_ok (lists [])
           creates_one fresh fresh "https://p" tt tt tt tt [] None
           (mkAgentRec "new" "DocOrchestrator") (Exception "quota exceeded")
           eq_refl eq_refl eq_refl eq_refl eq_refl eq_refl eq_refl eq_refl).
Defined.

End AgentsProperties.

(** ** The cached square *)

Section UtilsProperties.
Import Utils.

Lemma cached_forget (k x : Z) (l : list (Z * Z)) :
  cached k (forget x l) = if Z.eqb x k then None else cached k l.
Proof.
  induction l as [|[a v] l IH]; simpl; [now destruct (Z.eqb x k)|].
  destruct (Z.eqb a x) eqn:Hax.
  - apply Z.eqb_eq in Hax. subst a. rewrite IH. now destruct (Z.eqb x k).
  - simpl. destruct (Z.eqb a k) eqn:Hak; [|exact IH].
    destruct (Z.eqb x k) eqn:Hxk; [|reflexivity].
    apply Z.eqb_eq in Hak, Hxk. subst. rewrite Z.eqb_refl in Hax. discriminate.
Qed.

Lemma forget_absent (x : Z) (l : list (Z * Z)) : cached x l = None -> forget x l = l.
Proof.
  induction l as [|[a v] l IH]; simpl; [reflexivity|].
  destruct (Z.eqb a x); [discriminate|]. intros H. now rewrite IH.
Qed.

Lemma forget_shorter (x v : Z) (l : list (Z * Z)) :
  cached x l = Some v -> S (length (forget x l)) <= length l.
Proof.
  induction l as [|[a u] l IH]; simpl; [discriminate|].
  destruct (Z.eqb a x).
  - intros _. clear IH. induction l as [|[b t] l IH]; simpl; [lia|].
    destruct (Z.eqb b x); simpl; lia.
  - intros H. apply IH in H. simpl. lia.
Qed.

Lemma cached_removelast (k v : Z) (l : list (Z * Z)) :
  cached k (removelast l) = Some v -> cached k l = Some v.
Proof.
  induction l as [|[a u] l IH]; [discriminate|].
  destruct l as [|p l]; [discriminate|].
  change (removelast ((a, u) :: p :: l)) with ((a, u) :: removelast (p :: l)).
  simpl cached at 1. intros H. simpl. destruct (Z.eqb a k); [exact H|].
  apply IH, H.
Qed.

Lemma cached_removelast_none (k : Z) (l : list (Z * Z)) :
  cached k l = None -> cached k (removelast l) = None.
Proof.
  intros H. destruct (cached k (removelast l)) as [v|] eqn:E; [|reflexivity].
  apply cached_removelast in E. congruence.
Qed.

Lemma removelast_shorter {A} (l : list A) :
  l <> [] -> S (length (removelast l)) = length l.
Proof.
  induction l as [|a l IH]; [congruence|]. intros _.
  destruct l as [|b l]; [reflexivity|].
  change (removelast (a :: b :: l)) with (a :: removelast (b :: l)).
  simpl. f_equal. apply IH. discriminate.
Qed.

Lemma call_keeps_sound (x : Z) (c : Cache) :
  sound c ->
  fst (expensive_operation x c) = (x ^ 2)%Z
  /\ sound (snd (expensive_operation x c))
  /\ hits (snd (expensive_operation x c)) + misses (snd (expensive_operation x c))
     = S (hits c + misses c).
Proof.
  intros [Hval Hlen]. unfold expensive_operation.
  destruct (cached x (entries c)) as [v|] eqn:E; simpl.
  - split; [now apply Hval|]. split; [|lia]. split; simpl.
    + intros k u. destruct (Z.eqb x k) eqn:Hxk.
      * apply Z.eqb_eq in Hxk. subst k. intros H; inversion H; subst u. now apply Hval.
      * rewrite cached_forget, Hxk. apply Hval.
    + apply forget_shorter in E. lia.
  - split; [reflexivity|]. split; [|lia]. split; simpl.
    + intros k u. destruct (Z.eqb x k) eqn:Hxk.
      * apply Z.eqb_eq in Hxk. subst k. intros H; inversion H; reflexivity.
      * destruct (length (entries c) <? maxsize); [apply Hval|].
        intros H. apply cached_removelast in H. now apply Hval.
    + destruct (length (entries c) <? maxsize) eqn:Hfull.
      * apply Nat.ltb_lt in Hfull. lia.
      * apply Nat.ltb_ge in Hfull.
        rewrite removelast_shorter; [exact Hlen|].
        intros Hnil. rewrite Hnil in Hfull. unfold maxsize in Hfull. simpl in Hfull. lia.
Qed.

Lemma calls_keep_sound (xs : list Z) (c : Cache) :
  sound c ->
  fst (calls xs c) = map (fun x => (x ^ 2)%Z) xs
  /\ sound (snd (calls xs c))
  /\ hits (snd (calls xs c)) + misses (snd (calls xs c)) = length xs + (hits c + misses c).
Proof.
  revert c; induction xs as [|x xs IH]; intros c Hc; simpl.
  - repeat split; apply Hc.
  - destruct (call_keeps_sound x c Hc) as (Hv & Hs & Hn).
    destruct (expensive_operation x c) as [v c1]. simpl in Hv, Hs, Hn.
    destruct (IH c1 Hs) as (Hvs & Hs' & Hn').
    destruct (calls xs c1) as [vs c2]. simpl in *. subst v vs.
    repeat split; try apply Hs'. lia.
Qed.

Example calls_example :
  calls [3; -3; 3]%Z empty = ([9; 9; 9]%Z, mkCache [(3, 9); (-3, 9)]%Z 1 2).
Proof. reflexivity. Qed.

(** X23: from the empty cache, any sequence of calls on integers returns
    the square of each argument, whatever was cached and evicted on the way;
    the cache never holds more than 128 entries, and each call counts as
    one hit or one miss. *)
Theorem cached_calls_return_squares (xs : list Z) :
  fst (calls xs empty) = map (fun x => (x * x)%Z) xs
  /\ length (entries (snd (calls xs empty))) <= 128
  /\ hits (snd (calls xs empty)) + misses (snd (calls xs empty)) = length xs.
Proof.
  assert (H0 : sound empty) by (split; [discriminate | simpl; unfold maxsize; lia]).
  destruct (calls_keep_sound xs empty H0) as (Hv & [_ Hlen] & Hn).
  split; [|split].
  - rewrite Hv. apply map_ext. intros x. apply Z.pow_2_r.
  - exact Hlen.
  - rewrite Hn. simpl. lia.
Qed.

(** X24: on every cache, a call repeated at once is a hit: it returns the
    same value, leaves the entries and the misses as they are and adds one
    to the hits. *)
Theorem repeated_call_is_a_hit (x : Z) (c : Cache) :
  let c1 := snd (expensive_operation x c) in
  expensive_operation x c1
  = (fst (expensive_operation x c), mkCache (entries c1) (S (hits c1)) (misses c1)).
Proof.
  unfold expensive_operation.
  destruct (cached x (entries c)) as [v|] eqn:E; simpl; rewrite Z.eqb_refl; simpl.
  - f_equal. f_equal. f_equal.
    apply forget_absent. rewrite cached_forget, Z.eqb_refl. reflexivity.
  - f_equal. f_equal. f_equal.
    apply forget_absent.
    destruct (length (entries c) <? maxsize); [exact E|].
    now apply cached_removelast_none.
Qed.

End UtilsProperties.

(** ** The codebase scanner: what an endpoint entry holds *)

Section EndpointEntries.
Import Scanner.

Lemma contains_nil_inv (t : string) : contains t "" = true -> t = "".
Proof. destruct t; [reflexivity | discriminate]. Qed.

Lemma contains_lstrip (t s : string) :
  starts_solid t = true -> contains t s = true -> contains t (lstrip s) = true.
Proof.
  intros Ht. induction s as [|c s IH]; intros H; [exact H|].
  simpl lstrip. destruct (isspace c) eqn:Hc; [|exact H].
  unfold contains in H; fold contains in H.
  apply orb_true_iff in H as [H|H]; [|apply IH, H].
  destruct t as [|a t]; [discriminate Ht|].
  apply (startswith_cons c a s t) in H as [-> _].
  simpl in Ht. rewrite Hc in Ht. discriminate Ht.
Qed.

Lemma rstrip_cons (c : ascii) (s : string) :
  rstrip s <> "" -> rstrip (String c s) = String c (rstrip s).
Proof. simpl. destruct (rstrip s); [congruence | reflexivity]. Qed.

Lemma startswith_rstrip (t s : string) :
  ends_solid t = true -> startswith s t = true -> startswith (rstrip s) t = true.
Proof.
  revert s; induction t as [|a t IH]; intros s Ht H; [discriminate Ht|].
  destruct s as [|c s]; [discriminate H|].
  apply startswith_cons in H as [-> H].
  destruct t as [|b t].
  - simpl in Ht. apply negb_true_iff in Ht. simpl. rewrite Ht.
    destruct (rstrip s); apply startswith_cons; split; auto using startswith_nil.
  - assert (Hr : startswith (rstrip s) (String b t) = true) by (apply IH; auto).
    rewrite rstrip_cons.
    + apply startswith_cons. auto.
    + intros E. rewrite E in Hr. discriminate Hr.
Qed.

Lemma contains_rstrip (t s : string) :
  ends_solid t = true -> contains t s = true -> contains t (rstrip s) = true.
Proof.
  intros Ht. induction s as [|c s IH]; intros H.
  - apply contains_nil_inv in H. subst t. discriminate Ht.
  - unfold contains in H; fold contains in H.
    apply orb_true_iff in H as [H|H].
    + apply contains_startswith, startswith_rstrip; assumption.
    + apply IH in H. rewrite rstrip_cons; [now apply contains_tail|].
      intros E. rewrite E in H. apply contains_nil_inv in H. subst t. discriminate Ht.
Qed.

Lemma contains_strip (t s : string) :
  starts_solid t = true -> ends_solid t = true ->
  contains t s = true -> contains t (strip s) = true.
Proof. intros H1 H2 H. unfold strip. now apply contains_rstrip, contains_lstrip. Qed.

(** Stripping a matching line leaves a matching entry. *)
Lemma strip_keeps_endpoint (l : string) :
  is_endpoint_line l = true -> is_endpoint_line (strip l) = true.
Proof.
  unfold is_endpoint_line. intros H. apply orb_true_iff in H as [H|H].
  - rewrite (contains_strip "get(" l eq_refl eq_refl H). reflexivity.
  - rewrite (contains_strip "post(" l eq_refl eq_refl H). apply orb_true_r.
Qed.

(** X25: every entry of the endpoint list of a scan still has [get(] or
    [post(] inside: the stripping of a matching line removes white space
    around the match, never the match. *)
Theorem endpoint_entries_match (t : Tree) (top : string) :
  Forall (fun entry => contains "get(" entry || contains "post(" entry = true)
         (endpoints (scan t top)).
Proof.
  unfold scan. simpl.
  apply (scan_invariant
           (fun r => Forall (fun entry => is_endpoint_line entry = true) (endpoints r)) t top).
  - constructor.
  - intros root fs file r _ _ Hr. unfold scan_file.
    destruct (eligible file); [|exact Hr].
    assert (G : forall raw,
               Forall (fun entry => is_endpoint_line entry = true)
                      (endpoints r
                       ++ map strip (List.filter is_endpoint_line (file_lines raw)))).
    { intros raw. apply Forall_app. split; [exact Hr|].
      apply List.Forall_forall. intros entry Hin.
      apply in_map_iff in Hin as (l & <- & Hl).
      apply filter_In in Hl as [_ Hl]. now apply strip_keeps_endpoint. }
    unfold try_except, try_block, bind, when, reading, ret,
      set_language, extend_endpoints, append_auth, append_security, append_file.
    destruct (lenient (source t (path_join root file))) as [text|e]; [|exact Hr].
    destruct (any_in _ (lower text)).
    + destruct (strict (source t (path_join root file))) as [raw|e]; [|exact Hr].
      specialize (G raw).
      repeat match goal with
             | |- context [if ?b then _ else _] => destruct b
             end; exact G.
    + repeat match goal with
             | |- context [if ?b then _ else _] => destruct b
             end; exact Hr.
Qed.

End EndpointEntries.
